(** * An HTTP-addressable file cache (main.js): model and verified properties

    The server maps a URL [/DDD] (three ASCII digits) to the file
    [<cache>/DDD.jpeg] and serves GET, PUT and DELETE on it.  This file
    embeds the request handling of [main.js] and states its properties.

    Modelling choices, all visible in the definitions below:
    - JavaScript strings are [string]; Buffers are lists of bytes;
    - the cache directory is a finite map from file paths to contents;
    - Node's [path.join] is modelled for POSIX paths, segment by segment;
    - a handler is a computation in a state-and-exception monad over the
      file system, the response object and the console;
    - I/O failures are supplied by the environment as explicit faults. *)

From Stdlib Require Import ZArith Ascii String List Bool Lia.
From Stdlib.Strings Require Import Byte.
From stdpp Require Import base option list gmap strings.

Local Open Scope string_scope.
Local Open Scope Z_scope.

(** ** JavaScript values used by the program *)

(** A Node.js [Buffer]. *)
Abbreviation Buffer := (list byte).

(** An [Error] object: the handlers read [err.code] and [err.message]. *)
Record JsError := mkError { err_code : string; err_message : string }.

(** What a string becomes on the wire ([res.end(str)], UTF-8). *)
Definition Buffer_from (s : string) : Buffer := list_byte_of_string s.

(** [Buffer.concat(chunks)] *)
Definition Buffer_concat (chunks : list Buffer) : Buffer := concat chunks.

Arguments Buffer_from : simpl never.
Arguments Buffer_concat : simpl never.

(** ** Regular expressions, as far as [/^\/(\d{3})$/] needs them *)

Inductive regex : Type :=
| RChar (c : ascii)                (* a literal character *)
| RDigit                           (* \d : one of 0..9 *)
| RSeq (r1 r2 : regex)             (* r1 r2 *)
| RRepeat (n : nat) (r : regex)    (* r{n} *)
| RGroup (r : regex).              (* ( r ) : a capturing group *)

(** [\d] without the [u]/[v] flags matches exactly the ASCII digits. *)
Definition isDigit (c : ascii) : bool :=
  let n := nat_of_ascii c in (48 <=? n)%nat && (n <=? 57)%nat.

(** The result of matching a prefix: matched text, captures, remainder. *)
Definition rx_result : Type := string * list string * string.

Definition rx_then (a : option rx_result) (k : string -> option rx_result)
  : option rx_result :=
  match a with
  | Some (m1, g1, s1) =>
      match k s1 with
      | Some (m2, g2, s2) => Some (m1 +:+ m2, (g1 ++ g2)%list, s2)
      | None => None
      end
  | None => None
  end.

Fixpoint rx_run (r : regex) (s : string) : option rx_result :=
  match r with
  | RChar c =>
      match s with
      | String c' s' => if Ascii.eqb c c' then Some (String c' "", [], s') else None
      | EmptyString => None
      end
  | RDigit =>
      match s with
      | String c' s' => if isDigit c' then Some (String c' "", [], s') else None
      | EmptyString => None
      end
  | RSeq r1 r2 => rx_then (rx_run r1 s) (rx_run r2)
  | RRepeat n r1 =>
      (fix rep (k : nat) (s0 : string) : option rx_result :=
         match k with
         | O => Some ("", [], s0)
         | S k' => rx_then (rx_run r1 s0) (rep k')
         end) n s
  | RGroup r1 =>
      match rx_run r1 s with
      | Some (m, g, s') => Some (m, m :: g, s')
      | None => None
      end
  end.

(** [str.match(/^r$/)] for a non-global pattern anchored at both ends:
    [null] (here [None]) unless the whole string matches; otherwise the
    array whose element 0 is the match and element [i] the [i]-th group. *)
Definition String_match (s : string) (r : regex) : option (list string) :=
  match rx_run r s with
  | Some (m, g, EmptyString) => Some (m :: g)
  | _ => None
  end.

(** ** The router's key derivation *)

(** The pattern [/^\/(\d{3})$/]. *)
Definition url_pattern : regex := RSeq (RChar "/") (RGroup (RRepeat 3 RDigit)).

(** [getHttpCodeFromUrl]: [match ? match[1] : null]. *)
Definition getHttpCodeFromUrl (url : string) : option string :=
  match String_match url url_pattern with
  | Some m => m !! 1%nat
  | None => None
  end.

(** A code: exactly three ASCII digits. *)
Definition valid_code (code : string) : bool :=
  match code with
  | String a (String b (String c EmptyString)) => isDigit a && isDigit b && isDigit c
  | _ => false
  end.

(** ** Node's [path.join] on POSIX *)

(** [s.split('/')] *)
Fixpoint split_slash (s : string) : list string :=
  match s with
  | EmptyString => [""]
  | String c s' =>
      if Ascii.eqb c "/" then "" :: split_slash s'
      else match split_slash s' with
           | seg :: rest => String c seg :: rest
           | [] => [String c ""]
           end
  end.

(** One step of [normalizeString]: the stack holds the segments kept so
    far, innermost first.  Empty segments and [.] are dropped; [..] removes
    the segment before it, or is kept when there is none to remove and the
    path is relative. *)
Definition normalize_step (allowAboveRoot : bool) (stack : list string) (seg : string)
  : list string :=
  if String.eqb seg "" || String.eqb seg "." then stack
  else if String.eqb seg ".." then
    match stack with
    | top :: rest =>
        if String.eqb top ".." then (if allowAboveRoot then ".." :: stack else stack)
        else rest
    | [] => if allowAboveRoot then [".."] else []
    end
  else seg :: stack.

Definition normalize_segments (allowAboveRoot : bool) (path : string) : list string :=
  rev (fold_left (normalize_step allowAboveRoot) (split_slash path) []).

(** [segs.join('/')] *)
Fixpoint join_slash (segs : list string) : string :=
  match segs with
  | [] => ""
  | [seg] => seg
  | seg :: rest => seg +:+ "/" +:+ join_slash rest
  end.

Definition isAbsolute (path : string) : bool :=
  match path with
  | String c _ => Ascii.eqb c "/"
  | EmptyString => false
  end.

Fixpoint last_char (s : string) : option ascii :=
  match s with
  | EmptyString => None
  | String c EmptyString => Some c
  | String _ s' => last_char s'
  end.

Definition trailingSeparator (path : string) : bool :=
  match last_char path with
  | Some c => Ascii.eqb c "/"
  | None => false
  end.

(** [path.posix.normalize] *)
Definition posix_normalize (path : string) : string :=
  if String.eqb path "" then "."
  else
    let abs := isAbsolute path in
    let trailing := trailingSeparator path in
    let p := join_slash (normalize_segments (negb abs) path) in
    if String.eqb p "" then
      (if abs then "/" else if trailing then "./" else ".")
    else
      let p' := if trailing then p +:+ "/" else p in
      if abs then "/" +:+ p' else p'.

(** [path.posix.join(...args)]: the non-empty arguments, joined by a slash,
    then normalized. *)
Definition posix_join (args : list string) : string :=
  match List.filter (fun a => negb (String.eqb a "")) args with
  | [] => "."
  | parts => posix_normalize (join_slash parts)
  end.

(** *** Shapes of paths, used to state where [path.join] lands *)

(** A file name that is a single path segment and not a dot name. *)
Fixpoint has_slash (s : string) : bool :=
  match s with
  | EmptyString => false
  | String c s' => Ascii.eqb c "/" || has_slash s'
  end.

Definition plain_name (file : string) : bool :=
  negb (has_slash file) && negb (String.eqb file "")
  && negb (String.eqb file ".") && negb (String.eqb file "..").

(** [segs], each followed by a slash. *)
Fixpoint dir_string (segs : list string) : string :=
  match segs with
  | [] => ""
  | seg :: rest => seg +:+ "/" +:+ dir_string rest
  end.

(** The directory part of every path joined onto [dir]: the normalized
    segments of [dir], below the root when [dir] is absolute. *)
Definition dir_prefix (dir : string) : string :=
  (if isAbsolute dir then "/" else "")
  +:+ dir_string (normalize_segments (negb (isAbsolute dir)) dir).

(** ** The world a request handler runs in *)

(** [http.ServerResponse], as far as the handlers drive it. *)
Record ServerResponse := mkResponse {
  headersSent : bool;                    (* res.headersSent *)
  statusCode : Z;                        (* res.statusCode *)
  headers : list (string * string);      (* the headers given to writeHead *)
  body : Buffer;                         (* the bytes written so far *)
  writableEnded : bool                   (* res.end() was called *)
}.

(** A response nobody has written to: Node's default status is 200. *)
Definition fresh_response : ServerResponse := mkResponse false 200 [] [] false.

Inductive LogLine : Type :=
| Log (line : string)         (* console.log *)
| LogError (line : string).   (* console.error *)

(** The cache directory (a finite map from paths to file contents), the
    response under construction and the console output.  [hasBody] is the
    response object's private [_hasBody] flag: Node clears it when the
    response answers a HEAD request, and then drops every byte given to
    [res.write] and [res.end].  It is kept beside [res], which holds what
    the client is sent. *)
Record World := mkWorld {
  files : gmap string Buffer;
  res : ServerResponse;
  console : list LogLine;
  hasBody : bool
}.

Definition set_files (f : gmap string Buffer) (w : World) : World :=
  mkWorld f (res w) (console w) (hasBody w).
Definition set_res (r : ServerResponse) (w : World) : World :=
  mkWorld (files w) r (console w) (hasBody w).

(** How a JavaScript computation completes. *)
Inductive Completion (A : Type) : Type :=
| Normal (a : A)
| Throw (e : JsError).
Arguments Normal {A} a.
Arguments Throw {A} e.

(** State and exceptions: effects made before a [throw] stay. *)
Definition M (A : Type) : Type := World -> Completion A * World.

#[global] Instance M_ret : MRet M := fun A a w => (Normal a, w).
#[global] Instance M_bind : MBind M := fun A B f m w =>
  match m w with
  | (Normal a, w') => f a w'
  | (Throw e, w') => (Throw e, w')
  end.

Definition throw {A} (e : JsError) : M A := fun w => (Throw e, w).

(** [try { body } catch (err) { handler err }] *)
Definition try_catch {A} (body : M A) (handler : JsError -> M A) : M A := fun w =>
  match body w with
  | (Normal a, w') => (Normal a, w')
  | (Throw e, w') => handler e w'
  end.

Definition console_log (line : string) : M unit := fun w =>
  (Normal tt, mkWorld (files w) (res w) (console w ++ [Log line]) (hasBody w)).
Definition console_error (line : string) : M unit := fun w =>
  (Normal tt, mkWorld (files w) (res w) (console w ++ [LogError line]) (hasBody w)).

(** *** The response object *)

Definition ERR_HTTP_HEADERS_SENT : JsError :=
  mkError "ERR_HTTP_HEADERS_SENT" "Cannot write headers after they are sent to the client".

(** [res.writeHead(status, headers)]: fixes the status line and the headers;
    from then on [res.headersSent] is true, and a second call throws. *)
Definition writeHead (status : Z) (hs : list (string * string)) : M unit := fun w =>
  if headersSent (res w) then (Throw ERR_HTTP_HEADERS_SENT, w)
  else (Normal tt, set_res (mkResponse true status hs (body (res w)) (writableEnded (res w))) w).

(** The bytes of [data] that go out: none when the response has no body. *)
Definition body_bytes (w : World) (data : Buffer) : Buffer :=
  if hasBody w then data else [].

(** [res.write(chunk)], which is what a piped stream calls for its data. *)
Definition res_write (chunk : Buffer) : M unit := fun w =>
  let r := res w in
  if writableEnded r then (Normal tt, w)
  else (Normal tt,
        set_res (mkResponse true (statusCode r) (headers r)
                   (body r ++ body_bytes w chunk) false) w).

(** [res.end(data)]: writes the last bytes and finishes the response. *)
Definition res_end (data : Buffer) : M unit := fun w =>
  let r := res w in
  if writableEnded r then (Normal tt, w)
  else (Normal tt,
        set_res (mkResponse true (statusCode r) (headers r)
                   (body r ++ body_bytes w data) true) w).

Definition get_headersSent : M bool := fun w => (Normal (headersSent (res w)), w).

(** *** The file system, with the failures the environment may inject *)

(** A read stream that fails after delivering [rf_after] bytes. *)
Record ReadFault := mkReadFault { rf_after : nat; rf_error : JsError }.

(** A write that fails, leaving [wf_left] at the path ([None]: the path is
    as it was before the call). *)
Record WriteFault := mkWriteFault { wf_left : option Buffer; wf_error : JsError }.

(** The faults met by the file-system calls of one request. *)
Record Env := mkEnv {
  read_fault : option ReadFault;
  write_fault : option WriteFault;
  unlink_fault : option JsError
}.

Definition no_faults : Env := mkEnv None None None.

Definition ENOENT (syscall path : string) : JsError :=
  mkError "ENOENT"
    ("ENOENT: no such file or directory, " +:+ syscall +:+ " '" +:+ path +:+ "'").

(** [await fs.writeFile(path, data)]: replaces the contents of the file. *)
Definition fs_writeFile (fault : option WriteFault) (path : string) (data : Buffer)
  : M unit := fun w =>
  match fault with
  | Some f =>
      (Throw (wf_error f),
       match wf_left f with
       | Some partial => set_files (<[path := partial]> (files w)) w
       | None => w
       end)
  | None => (Normal tt, set_files (<[path := data]> (files w)) w)
  end.

(** [await fs.unlink(path)]: removes the file, [ENOENT] when there is none. *)
Definition fs_unlink (fault : option JsError) (path : string) : M unit := fun w =>
  match fault with
  | Some e => (Throw e, w)
  | None =>
      match files w !! path with
      | Some _ => (Normal tt, set_files (delete path (files w)) w)
      | None => (Throw (ENOENT "unlink" path), w)
      end
  end.

(** A [fs.ReadStream]: its path, whether it is piped into the response,
    and its ['error'] listener. *)
Record ReadStream := mkReadStream {
  rs_path : string;
  rs_piped : bool;
  rs_onError : option (JsError -> M unit)
}.

(** [fsBase.createReadStream(path)] only builds the stream object.  The
    file is opened later, from the event loop, and a failure to open it
    (a missing file included) is reported by an ['error'] event: nothing
    is thrown at the call. *)
Definition createReadStream (path : string) : M ReadStream :=
  mret (mkReadStream path false None).

(** [readStream.pipe(res)] and [readStream.on('error', listener)]. *)
Definition pipe (rs : ReadStream) : ReadStream :=
  mkReadStream (rs_path rs) true (rs_onError rs).
Definition on_error (rs : ReadStream) (listener : JsError -> M unit) : ReadStream :=
  mkReadStream (rs_path rs) (rs_piped rs) (Some listener).

(** What the stream emits once it runs: its data followed by ['end'], or
    the data read before a failure followed by ['error']. *)
Inductive StreamEvents : Type :=
| StreamEnd (data : Buffer)
| StreamError (data : Buffer) (e : JsError).

Definition stream_events (fault : option ReadFault) (fs : gmap string Buffer)
    (path : string) : StreamEvents :=
  match fault with
  | Some f => StreamError (take (rf_after f) (default [] (fs !! path))) (rf_error f)
  | None =>
      match fs !! path with
      | Some data => StreamEnd data
      | None => StreamError [] (ENOENT "open" path)
      end
  end.

(** The bytes a read stream hands to the response before it stops. *)
Definition streamed (fault : option ReadFault) (fs : gmap string Buffer) (path : string)
  : Buffer :=
  match stream_events fault fs path with
  | StreamEnd data => data
  | StreamError data _ => data
  end.

(** The event loop delivers the stream's events: data goes to the piped
    response, ['end'] ends it, ['error'] runs the listener (and does not
    end the response by itself). *)
Definition run_stream (fault : option ReadFault) (rs : ReadStream) : M unit := fun w =>
  match stream_events fault (files w) (rs_path rs) with
  | StreamEnd data =>
      (if rs_piped rs then res_write data ;; res_end [] else mret tt) w
  | StreamError data e =>
      ((if rs_piped rs then res_write data else mret tt) ;;
       match rs_onError rs with
       | Some listener => listener e
       | None => throw e
       end) w
  end.

(** *** The request *)

(** [http.IncomingMessage]: method, URL, and the body as the chunks the
    socket delivers, possibly cut short by a stream error. *)
Record IncomingMessage := mkRequest {
  method : string;
  url : string;
  body_chunks : list Buffer;
  body_error : option JsError
}.

(** [for await (const chunk of req) { chunks.push(chunk); }] *)
Fixpoint for_await_push (pending : list Buffer) (failure : option JsError)
    (chunks : list Buffer) : M (list Buffer) :=
  match pending with
  | chunk :: pending' => for_await_push pending' failure (chunks ++ [chunk])
  | [] =>
      match failure with
      | Some err => throw err
      | None => mret chunks
      end
  end.

(** [new http.ServerResponse(req)]: the response to a HEAD request has no
    body ([if (req.method === 'HEAD') this._hasBody = false]). *)
Definition response_has_body (req : IncomingMessage) : bool :=
  negb (String.eqb (method req) "HEAD").

(** The world in which the listener is called for [req]: the cache as it
    is, a response nobody has written to, an empty console. *)
Definition initial_world (req : IncomingMessage) (fs : gmap string Buffer) : World :=
  mkWorld fs fresh_response [] (response_has_body req).

(** ** The program *)

(** [program.opts()]: the three required command-line options. *)
Record Options := mkOptions { host : string; port : Z; cache : string }.

Definition text_plain : list (string * string) := [("Content-Type", "text/plain")].

(** [res.end(str)] *)
Definition res_end_text (s : string) : M unit := res_end (Buffer_from s).

Section Server.

Variable options : Options.

(** [getCacheFilePath] *)
Definition getCacheFilePath (code : string) : string :=
  posix_join [cache options; code +:+ ".jpeg"].

(** [handleGet].  The [try] block runs to its end before the stream emits
    anything; the stream's events are delivered after it. *)
Definition handleGet (env : Env) (code : string) : M unit :=
  let filePath := getCacheFilePath code in
  started ← try_catch
    (readStream ← createReadStream filePath;
     writeHead 200 [("Content-Type", "image/jpeg"); ("X-Cache", "HIT")];;
     console_log ("[GET " +:+ code +:+ "] Image served from cache (200 OK).");;
     let readStream := pipe readStream in
     let readStream := on_error readStream (fun streamErr =>
       console_error ("[GET " +:+ code +:+ "] Stream error: " +:+ err_message streamErr);;
       sent ← get_headersSent;
       if negb sent then
         writeHead 500 text_plain;;
         res_end_text "Internal Server Error during file streaming."
       else
         res_end []) in
     mret (Some readStream))
    (fun err =>
       (if String.eqb (err_code err) "ENOENT" then
          writeHead 404 text_plain;;
          res_end_text ("Not Found: Image for code " +:+ code +:+ " not in cache.");;
          console_log ("[GET " +:+ code +:+ "] Image not found (404 Not Found).")
        else
          console_error ("[GET " +:+ code +:+ "] Error reading from cache: " +:+ err_message err);;
          writeHead 500 text_plain;;
          res_end_text "Internal Server Error while reading from cache.");;
       mret None);
  match started with
  | Some readStream => run_stream (read_fault env) readStream
  | None => mret tt
  end.

(** [handlePut] *)
Definition handlePut (env : Env) (code : string) (req : IncomingMessage) : M unit :=
  let filePath := getCacheFilePath code in
  received ← try_catch
    (chunks ← for_await_push (body_chunks req) (body_error req) [];
     mret (Some chunks))
    (fun err =>
       console_error ("[PUT " +:+ code +:+ "] Error reading request body: " +:+ err_message err);;
       writeHead 500 text_plain;;
       res_end_text "Internal Server Error.";;
       mret None);
  match received with
  | None => mret tt
  | Some chunks =>
      let imageBuffer := Buffer_concat chunks in
      if Z.of_nat (length imageBuffer) =? 0 then
        writeHead 400 text_plain;;
        res_end_text "Bad Request: Image body is empty."
      else
        try_catch
          (fs_writeFile (write_fault env) filePath imageBuffer;;
           writeHead 201 text_plain;;
           res_end_text ("Created: Image for code " +:+ code +:+ " saved/replaced in cache.");;
           console_log ("[PUT " +:+ code +:+ "] Image saved/replaced (201 Created)."))
          (fun err =>
             console_error ("[PUT " +:+ code +:+ "] Error saving file: " +:+ err_message err);;
             writeHead 500 text_plain;;
             res_end_text "Internal Server Error while saving file.")
  end.

(** [handleDelete] *)
Definition handleDelete (env : Env) (code : string) : M unit :=
  let filePath := getCacheFilePath code in
  try_catch
    (fs_unlink (unlink_fault env) filePath;;
     writeHead 200 text_plain;;
     res_end_text ("OK: Image for code " +:+ code +:+ " deleted from cache.");;
     console_log ("[DELETE " +:+ code +:+ "] Image deleted (200 OK)."))
    (fun err =>
       if String.eqb (err_code err) "ENOENT" then
         writeHead 404 text_plain;;
         res_end_text "Not Found: Image not in cache.";;
         console_log ("[DELETE " +:+ code +:+ "] Image not found (404 Not Found).")
       else
         console_error ("[DELETE " +:+ code +:+ "] Error deleting file: " +:+ err_message err);;
         writeHead 500 text_plain;;
         res_end_text "Internal Server Error while deleting file.").

(** The request listener given to [http.createServer] in [startServer].
    [!httpCode] holds for [null] and for the empty string. *)
Definition requestListener (env : Env) (req : IncomingMessage) : M unit :=
  let httpCode := getHttpCodeFromUrl (url req) in
  let invalid :=
    writeHead 404 text_plain;;
    res_end_text "Invalid URL format. Use /XXX where XXX is a 3-digit HTTP code." in
  match httpCode with
  | None => invalid
  | Some code =>
      if String.eqb code "" then invalid
      else
        console_log ("Request: " +:+ method req +:+ " " +:+ url req);;
        if String.eqb (method req) "GET" then handleGet env code
        else if String.eqb (method req) "PUT" then handlePut env code req
        else if String.eqb (method req) "DELETE" then handleDelete env code
        else
          writeHead 405 text_plain;;
          res_end_text "Method Not Allowed"
  end.

(** One request served against the cache [fs]: the world it leaves. *)
Definition serve (env : Env) (req : IncomingMessage) (fs : gmap string Buffer) : World :=
  snd (requestListener env req (initial_world req fs)).

(** The response the client sees, and the cache afterwards. *)
Definition response (env : Env) (req : IncomingMessage) (fs : gmap string Buffer)
  : ServerResponse := res (serve env req fs).
Definition cache_after (env : Env) (req : IncomingMessage) (fs : gmap string Buffer)
  : gmap string Buffer := files (serve env req fs).

(** Requests without a body, and a PUT whose body arrives whole. *)
Definition GET (path : string) : IncomingMessage := mkRequest "GET" path [] None.
Definition DELETE (path : string) : IncomingMessage := mkRequest "DELETE" path [] None.
Definition PUT (path : string) (chunks : list Buffer) : IncomingMessage :=
  mkRequest "PUT" path chunks None.

End Server.

(** ** Vocabulary of the statements *)

(** A request path of the form [/DDD]: a slash followed by exactly three
    ASCII digits and nothing else.  This is the shape the specification
    names; [getHttpCodeFromUrl] is compared with it below. *)
Definition code_path (u : string) : bool :=
  match u with
  | String c code => Ascii.eqb c "/" && valid_code code
  | EmptyString => false
  end.

(** What reaches the client of the body a handler gives to [res.end]:
    all of it, except in answer to a HEAD request, which has no body. *)
Definition sent_body (req : IncomingMessage) (data : Buffer) : Buffer :=
  if response_has_body req then data else [].

(** Requests served one after the other, each on the cache the previous
    one left: the responses in order, and the final cache. *)
Fixpoint serve_all (options : Options) (reqs : list (Env * IncomingMessage))
    (fs : gmap string Buffer) : list ServerResponse * gmap string Buffer :=
  match reqs with
  | [] => ([], fs)
  | (env, req) :: rest =>
      let w := serve options env req fs in
      let (rs, fs') := serve_all options rest (files w) in
      (res w :: rs, fs')
  end.

(** Errors, faults and requests with the error messages blanked: two
    executions differ only in their internal error messages when they
    agree on everything that is left. *)
Definition without_message (e : JsError) : JsError := mkError (err_code e) "".

Definition env_without_messages (env : Env) : Env :=
  mkEnv
    (option_map (fun f => mkReadFault (rf_after f) (without_message (rf_error f)))
       (read_fault env))
    (option_map (fun f => mkWriteFault (wf_left f) (without_message (wf_error f)))
       (write_fault env))
    (option_map without_message (unlink_fault env)).

Definition req_without_messages (req : IncomingMessage) : IncomingMessage :=
  mkRequest (method req) (url req) (body_chunks req)
    (option_map without_message (body_error req)).

Definition differ_only_in_messages (env1 : Env) (req1 : IncomingMessage)
    (env2 : Env) (req2 : IncomingMessage) : Prop :=
  env_without_messages env1 = env_without_messages env2
  /\ req_without_messages req1 = req_without_messages req2.

(** The bodies of the 500 responses the server can produce. *)
Definition internal_error_bodies : list Buffer :=
  [ Buffer_from "Internal Server Error.";
    Buffer_from "Internal Server Error while saving file.";
    Buffer_from "Internal Server Error while deleting file." ].

(** The configuration used in the worked examples. *)
Definition example_options : Options := mkOptions "localhost" 3000 "./cache".

(** One request run to its end on the cache [fs], with a fresh response
    and an empty console: how the listener completes, and the world it
    leaves. *)
Definition run (options : Options) (env : Env) (req : IncomingMessage)
    (fs : gmap string Buffer) : Completion unit * World :=
  requestListener options env req (initial_world req fs).

(** What the request wrote to the console. *)
Definition console_after (options : Options) (env : Env) (req : IncomingMessage)
    (fs : gmap string Buffer) : list LogLine :=
  console (serve options env req fs).

(** The headers of a served image. *)
Definition image_headers : list (string * string) :=
  [("Content-Type", "image/jpeg"); ("X-Cache", "HIT")].

(** Every file of the cache is the file of some code. *)
Definition named_by_codes (options : Options) (fs : gmap string Buffer) : Prop :=
  forall p, is_Some (fs !! p) ->
    exists code, valid_code code = true /\ p = getCacheFilePath options code.

(** What the read stream of a GET reports to its ['error'] listener. *)
Definition stream_error_log (code : string) (fault : option ReadFault)
    (fs : gmap string Buffer) (path : string) : list LogLine :=
  match stream_events fault fs path with
  | StreamEnd _ => []
  | StreamError _ e => [LogError ("[GET " +:+ code +:+ "] Stream error: " +:+ err_message e)]
  end.

(** * Properties *)

(** ** Strings *)

Lemma append_cons (c : ascii) (a b : string) : String c a +:+ b = String c (a +:+ b).
Proof. reflexivity. Qed.

Lemma append_nil_l (a : string) : "" +:+ a = a.
Proof. reflexivity. Qed.

Lemma append_assoc (a b c : string) : (a +:+ b) +:+ c = a +:+ (b +:+ c).
Proof.
  induction a as [|x a IH]; [reflexivity|].
  rewrite !append_cons. now rewrite IH.
Qed.

Lemma length_append (a b : string) :
  String.length (a +:+ b) = (String.length a + String.length b)%nat.
Proof.
  induction a as [|x a IH]; [reflexivity|].
  rewrite append_cons. cbn [String.length]. now rewrite IH.
Qed.

Lemma append_inv_tail (a b t : string) : a +:+ t = b +:+ t -> a = b.
Proof.
  revert b. induction a as [|x a IH]; intros [|y b] H.
  - reflexivity.
  - exfalso. apply (f_equal String.length) in H.
    rewrite !length_append in H. cbn [String.length] in H. lia.
  - exfalso. apply (f_equal String.length) in H.
    rewrite !length_append in H. cbn [String.length] in H. lia.
  - rewrite !append_cons in H. injection H as -> H. f_equal. now apply IH.
Qed.

(** ** The router: which URLs carry a code *)

Lemma isDigit_not_slash (c : ascii) : isDigit c = true -> Ascii.eqb c "/" = false.
Proof.
  intros H. apply Ascii.eqb_neq. intros ->. discriminate H.
Qed.

(** The pattern, run on a string: a slash and three digits are consumed,
    and the three digits are captured. *)
Lemma rx_run_url_pattern (u : string) :
  rx_run url_pattern u =
  match u with
  | String c0 (String a (String b (String c rest))) =>
      if Ascii.eqb "/" c0 && isDigit a && isDigit b && isDigit c
      then Some (String c0 (String a (String b (String c ""))),
                 [String a (String b (String c ""))], rest)
      else None
  | _ => None
  end.
Proof.
  unfold url_pattern.
  destruct u as [|c0 [|a [|b [|c rest]]]]; cbn [rx_run].
  all: repeat (first
    [ match goal with |- context [Ascii.eqb "/" ?x] => destruct (Ascii.eqb "/" x) end
    | match goal with |- context [isDigit ?x] => destruct (isDigit x) end ];
    cbn [rx_then andb]).
  all: reflexivity.
Qed.

Lemma getHttpCodeFromUrl_Some (u code : string) :
  getHttpCodeFromUrl u = Some code <-> valid_code code = true /\ u = String "/" code.
Proof.
  unfold getHttpCodeFromUrl, String_match. rewrite rx_run_url_pattern.
  destruct u as [|c0 [|a [|b [|c rest]]]].
  1-4: split; [discriminate | intros [Hv E]; destruct code as [|? [|? [|? ?]]];
                               discriminate].
  destruct (Ascii.eqb_spec "/" c0) as [<-|Hc0]; cbn [andb].
  2: { split; [discriminate | intros [_ E]; congruence]. }
  destruct (isDigit a && isDigit b && isDigit c) eqn:Hd.
  - destruct rest as [|d rest].
    + cbn. split.
      * intros [= <-]. auto.
      * intros [_ [= <-]]. reflexivity.
    + split; [discriminate|]. intros [Hv [= <-]]. discriminate Hv.
  - split; [discriminate|]. intros [Hv [= <-]].
    destruct rest; cbn in Hv; congruence.
Qed.

Lemma getHttpCodeFromUrl_valid (code : string) :
  valid_code code = true -> getHttpCodeFromUrl (String "/" code) = Some code.
Proof. intros H. apply getHttpCodeFromUrl_Some. auto. Qed.

Lemma getHttpCodeFromUrl_None (u : string) :
  (forall code, valid_code code = true -> u <> String "/" code) ->
  getHttpCodeFromUrl u = None.
Proof.
  intros H. destruct (getHttpCodeFromUrl u) as [code|] eqn:E; [|reflexivity].
  apply getHttpCodeFromUrl_Some in E as [Hv ->]. now destruct (H code Hv).
Qed.

Lemma valid_code_nonempty (code : string) :
  valid_code code = true -> String.eqb code "" = false.
Proof. destruct code; [discriminate | reflexivity]. Qed.

(** The shapes the pattern turns away: too short, too long, a letter, a
    further segment, a query string, a missing slash. *)
Example rejected_paths :
  List.map getHttpCodeFromUrl ["/"; "/4"; "/1234"; "/abc"; "/40a"; "/404/"; "/404?x=1"; "404"]
  = [None; None; None; None; None; None; None; None].
Proof. reflexivity. Qed.

Example accepted_paths :
  List.map getHttpCodeFromUrl ["/404"; "/000"; "/999"] = [Some "404"; Some "000"; Some "999"].
Proof. reflexivity. Qed.

(** ** Paths: what [path.join] does to a plain file name *)

Lemma split_slash_nonempty (s : string) : split_slash s <> [].
Proof.
  destruct s as [|c s]; cbn; [discriminate|].
  destruct (Ascii.eqb c "/"); [discriminate|].
  destruct (split_slash s); discriminate.
Qed.

Lemma split_slash_app (a b : string) :
  split_slash (a +:+ String "/" b) = (split_slash a ++ split_slash b)%list.
Proof.
  induction a as [|c a IH].
  - reflexivity.
  - rewrite append_cons. cbn [split_slash].
    destruct (Ascii.eqb c "/").
    + rewrite IH. reflexivity.
    + rewrite IH. pose proof (split_slash_nonempty a) as Hne.
      destruct (split_slash a) as [|seg rest]; [contradiction|reflexivity].
Qed.

Lemma split_slash_plain (file : string) :
  has_slash file = false -> split_slash file = [file].
Proof.
  induction file as [|c file IH]; [reflexivity|].
  cbn. intros H. apply orb_false_iff in H as [Hc Hf].
  rewrite Hc, (IH Hf). reflexivity.
Qed.

Lemma last_char_app (a file : string) :
  file <> "" -> last_char (a +:+ file) = last_char file.
Proof.
  intros Hne. induction a as [|c a IH]; [reflexivity|].
  rewrite append_cons. cbn [last_char]. rewrite IH.
  destruct (a +:+ file) eqn:E; [|reflexivity].
  destruct a; [rewrite append_nil_l in E; congruence | discriminate E].
Qed.

Lemma last_char_plain (file : string) :
  has_slash file = false -> trailingSeparator file = false.
Proof.
  unfold trailingSeparator. induction file as [|c file IH]; [reflexivity|].
  cbn. intros H. apply orb_false_iff in H as [Hc Hf].
  destruct file as [|d file]; [exact Hc | exact (IH Hf)].
Qed.

Lemma join_slash_snoc (segs : list string) (file : string) :
  join_slash (segs ++ [file]) = dir_string segs +:+ file.
Proof.
  induction segs as [|seg segs IH]; [reflexivity|].
  cbn [app join_slash dir_string]. rewrite IH.
  destruct (segs ++ [file])%list eqn:E.
  - destruct segs; discriminate E.
  - now rewrite !append_assoc.
Qed.

Lemma normalize_step_plain (b : bool) (stack : list string) (file : string) :
  plain_name file = true -> normalize_step b stack file = file :: stack.
Proof.
  unfold plain_name, normalize_step. intros H.
  apply andb_true_iff in H as [H H3]. apply andb_true_iff in H as [H H2].
  apply andb_true_iff in H as [_ H1].
  apply negb_true_iff in H1, H2, H3. now rewrite H1, H2, H3.
Qed.

Lemma append_eq_empty (a b : string) : a +:+ b = "" -> b = "".
Proof. destruct a; [auto | discriminate]. Qed.

(** Joining a plain file name onto a directory: the result is the
    directory's normalized prefix followed by the file name, unchanged. *)
Lemma posix_join_plain (dir file : string) :
  plain_name file = true -> posix_join [dir; file] = dir_prefix dir +:+ file.
Proof.
  intros Hp. pose proof Hp as Hp'. unfold plain_name in Hp'.
  apply andb_true_iff in Hp' as [Hq _]. apply andb_true_iff in Hq as [Hq _].
  apply andb_true_iff in Hq as [Hs He].
  apply negb_true_iff in Hs, He. apply String.eqb_neq in He.
  assert (Hfe : String.eqb file "" = false) by now apply String.eqb_neq.
  unfold posix_join. cbn [List.filter]. rewrite Hfe. cbn [negb].
  set (joined := join_slash (if negb (String.eqb dir "") then [dir; file] else [file])).
  assert (Hj : joined = if String.eqb dir "" then file else dir +:+ String "/" file).
  { subst joined. destruct (String.eqb dir ""); reflexivity. }
  assert (Hgoal : posix_normalize joined = dir_prefix dir +:+ file).
  { assert (Hjne : String.eqb joined "" = false).
    { apply String.eqb_neq. rewrite Hj. destruct (String.eqb dir ""); [exact He|].
      intros E. apply append_eq_empty in E. discriminate E. }
    assert (Habs : isAbsolute joined = isAbsolute dir).
    { rewrite Hj. destruct (String.eqb_spec dir "") as [->|Hd].
      - destruct file as [|c f]; [reflexivity|]. cbn in Hs |- *.
        now apply orb_false_iff in Hs as [-> _].
      - destruct dir; [congruence | reflexivity]. }
    assert (Htr : trailingSeparator joined = false).
    { rewrite Hj. destruct (String.eqb dir ""); [now apply last_char_plain|].
      unfold trailingSeparator.
      change (String "/" file) with (String "/" "" +:+ file).
      rewrite <- append_assoc, last_char_app by exact He.
      now apply last_char_plain. }
    assert (Hseg : forall b, normalize_segments b joined
                             = (normalize_segments b dir ++ [file])%list).
    { intros b. unfold normalize_segments. rewrite Hj.
      destruct (String.eqb_spec dir "") as [->|Hd].
      - rewrite (split_slash_plain _ Hs). cbn [fold_left split_slash].
        rewrite normalize_step_plain by exact Hp. reflexivity.
      - rewrite split_slash_app, (split_slash_plain _ Hs), fold_left_app.
        cbn [fold_left]. rewrite normalize_step_plain by exact Hp. reflexivity. }
    unfold posix_normalize, dir_prefix. rewrite Hjne, Habs, Htr, Hseg, join_slash_snoc.
    destruct (String.eqb_spec (dir_string (normalize_segments (negb (isAbsolute dir)) dir)
                               +:+ file) "") as [E|_].
    - apply append_eq_empty in E. contradiction.
    - destruct (isAbsolute dir); reflexivity. }
  subst joined. destruct (String.eqb dir ""); cbn [negb] in *; exact Hgoal.
Qed.

(** [path.join] on some cache directories. *)
Example posix_join_examples :
  List.map (fun dir => posix_join [dir; "404.jpeg"])
    ["./cache"; "cache/"; "/var/cache/../img//"; ""; "."; "/"; "../shared"]
  = ["cache/404.jpeg"; "cache/404.jpeg"; "/var/img/404.jpeg"; "404.jpeg"; "404.jpeg";
     "/404.jpeg"; "../shared/404.jpeg"].
Proof. reflexivity. Qed.

Example dir_prefix_examples :
  List.map dir_prefix ["./cache"; "cache/"; "/var/cache/../img//"; ""; "."; "/"; "../shared"]
  = ["cache/"; "cache/"; "/var/img/"; ""; ""; "/"; "../shared/"].
Proof. reflexivity. Qed.

(** ** The cache file of a code *)

Lemma code_file_plain (code : string) :
  valid_code code = true -> plain_name (code +:+ ".jpeg") = true.
Proof.
  destruct code as [|a [|b [|c [|d code]]]]; try discriminate.
  cbn [valid_code]. intros H.
  apply andb_true_iff in H as [H Hc]. apply andb_true_iff in H as [Ha Hb].
  apply isDigit_not_slash in Ha, Hb, Hc.
  unfold plain_name. rewrite !append_cons, append_nil_l. cbn [has_slash].
  rewrite Ha, Hb, Hc. cbn [orb negb andb].
  apply andb_true_iff; split; [apply andb_true_iff; split|].
  - reflexivity.
  - cbn. now destruct (Ascii.eqb a ".").
  - cbn. destruct (Ascii.eqb a "."); [|reflexivity]. now destruct (Ascii.eqb b ".").
Qed.

Lemma append_inv_head (p a b : string) : p +:+ a = p +:+ b -> a = b.
Proof.
  induction p as [|c p IH]; [auto|].
  rewrite !append_cons. intros [= H]. auto.
Qed.

Section ServerFacts.

Variable options : Options.

Lemma getCacheFilePath_valid (code : string) :
  valid_code code = true ->
  getCacheFilePath options code = dir_prefix (cache options) +:+ code +:+ ".jpeg".
Proof.
  intros Hv. unfold getCacheFilePath. now rewrite posix_join_plain by now apply code_file_plain.
Qed.

Lemma getCacheFilePath_inj (c1 c2 : string) :
  valid_code c1 = true -> valid_code c2 = true ->
  getCacheFilePath options c1 = getCacheFilePath options c2 -> c1 = c2.
Proof.
  intros H1 H2. rewrite !getCacheFilePath_valid by assumption.
  intros E. apply append_inv_head in E. now apply append_inv_tail in E.
Qed.

(** *** What each handler leaves behind *)

Lemma for_await_push_run (pending : list Buffer) (failure : option JsError)
    (chunks : list Buffer) (w : World) :
  for_await_push pending failure chunks w =
  match failure with
  | Some err => (Throw err, w)
  | None => (Normal (chunks ++ pending)%list, w)
  end.
Proof.
  revert chunks. induction pending as [|chunk pending IH]; intros chunks.
  - cbn. rewrite app_nil_r. now destruct failure.
  - cbn [for_await_push]. rewrite IH, <- app_assoc. reflexivity.
Qed.

Ltac enter_listener Hv Hu Hm :=
  unfold response, cache_after, serve, requestListener, initial_world, response_has_body;
  rewrite Hu, (getHttpCodeFromUrl_valid _ Hv), (valid_code_nonempty _ Hv), Hm;
  cbn [String.eqb Ascii.eqb Bool.eqb negb].

Ltac run_handler :=
  unfold handleGet, handlePut, handleDelete, run_stream, try_catch, mbind, M_bind,
    mret, M_ret, throw, console_log, console_error, writeHead, res_end_text, res_end,
    res_write, body_bytes, get_headersSent, createReadStream, fs_writeFile, fs_unlink.

Lemma serve_invalid env req fs :
  getHttpCodeFromUrl (url req) = None ->
  serve options env req fs =
  mkWorld fs
    (mkResponse true 404 text_plain
       (sent_body req
          (Buffer_from "Invalid URL format. Use /XXX where XXX is a 3-digit HTTP code."))
       true)
    [] (response_has_body req).
Proof.
  intros H. unfold serve, requestListener. rewrite H. reflexivity.
Qed.

Lemma serve_GET env req fs code :
  valid_code code = true -> url req = String "/" code -> method req = "GET" ->
  response options env req fs =
    mkResponse true 200 [("Content-Type", "image/jpeg"); ("X-Cache", "HIT")]
      (streamed (read_fault env) fs (getCacheFilePath options code)) true
  /\ cache_after options env req fs = fs.
Proof.
  intros Hv Hu Hm. enter_listener Hv Hu Hm. run_handler. unfold streamed. cbn.
  destruct (stream_events _ _ _); cbn; rewrite ?app_nil_r; auto.
Qed.

Lemma serve_PUT_aborted env req fs code err :
  valid_code code = true -> url req = String "/" code -> method req = "PUT" ->
  body_error req = Some err ->
  response options env req fs =
    mkResponse true 500 text_plain (Buffer_from "Internal Server Error.") true
  /\ cache_after options env req fs = fs.
Proof.
  intros Hv Hu Hm He. enter_listener Hv Hu Hm. run_handler. cbn.
  rewrite for_await_push_run, He. cbn. auto.
Qed.

Lemma serve_PUT_empty env req fs code :
  valid_code code = true -> url req = String "/" code -> method req = "PUT" ->
  body_error req = None -> Buffer_concat (body_chunks req) = [] ->
  response options env req fs =
    mkResponse true 400 text_plain (Buffer_from "Bad Request: Image body is empty.") true
  /\ cache_after options env req fs = fs.
Proof.
  intros Hv Hu Hm He Hb. enter_listener Hv Hu Hm. run_handler. cbn.
  rewrite for_await_push_run, He. cbn. rewrite Hb. cbn. auto.
Qed.

Lemma serve_PUT_stored env req fs code :
  valid_code code = true -> url req = String "/" code -> method req = "PUT" ->
  body_error req = None -> Buffer_concat (body_chunks req) <> [] ->
  write_fault env = None ->
  response options env req fs =
    mkResponse true 201 text_plain
      (Buffer_from ("Created: Image for code " +:+ code +:+ " saved/replaced in cache.")) true
  /\ cache_after options env req fs =
     <[getCacheFilePath options code := Buffer_concat (body_chunks req)]> fs.
Proof.
  intros Hv Hu Hm He Hb Hw. enter_listener Hv Hu Hm. run_handler. cbn.
  rewrite for_await_push_run, He. cbn.
  destruct (Buffer_concat (body_chunks req)) as [|x data] eqn:E; [congruence|].
  cbn. rewrite Hw. cbn. auto.
Qed.

Lemma serve_PUT_write_failed env req fs code f :
  valid_code code = true -> url req = String "/" code -> method req = "PUT" ->
  body_error req = None -> Buffer_concat (body_chunks req) <> [] ->
  write_fault env = Some f ->
  response options env req fs =
    mkResponse true 500 text_plain
      (Buffer_from "Internal Server Error while saving file.") true
  /\ cache_after options env req fs =
     match wf_left f with
     | Some partial => <[getCacheFilePath options code := partial]> fs
     | None => fs
     end.
Proof.
  intros Hv Hu Hm He Hb Hw. enter_listener Hv Hu Hm. run_handler. cbn.
  rewrite for_await_push_run, He. cbn.
  destruct (Buffer_concat (body_chunks req)) as [|x data] eqn:E; [congruence|].
  cbn. rewrite Hw. cbn. destruct (wf_left f); auto.
Qed.

Lemma serve_DELETE_removed env req fs code :
  valid_code code = true -> url req = String "/" code -> method req = "DELETE" ->
  unlink_fault env = None -> is_Some (fs !! getCacheFilePath options code) ->
  response options env req fs =
    mkResponse true 200 text_plain
      (Buffer_from ("OK: Image for code " +:+ code +:+ " deleted from cache.")) true
  /\ cache_after options env req fs = delete (getCacheFilePath options code) fs.
Proof.
  intros Hv Hu Hm Hf [data Hd]. enter_listener Hv Hu Hm. run_handler. cbn.
  rewrite Hf, Hd. cbn. auto.
Qed.

Lemma serve_DELETE_absent env req fs code :
  valid_code code = true -> url req = String "/" code -> method req = "DELETE" ->
  unlink_fault env = None -> fs !! getCacheFilePath options code = None ->
  response options env req fs =
    mkResponse true 404 text_plain (Buffer_from "Not Found: Image not in cache.") true
  /\ cache_after options env req fs = fs.
Proof.
  intros Hv Hu Hm Hf Hd. enter_listener Hv Hu Hm. run_handler. cbn.
  rewrite Hf, Hd. cbn. auto.
Qed.

Lemma serve_DELETE_failed env req fs code err :
  valid_code code = true -> url req = String "/" code -> method req = "DELETE" ->
  unlink_fault env = Some err ->
  response options env req fs =
    (if String.eqb (err_code err) "ENOENT"
     then mkResponse true 404 text_plain (Buffer_from "Not Found: Image not in cache.") true
     else mkResponse true 500 text_plain
            (Buffer_from "Internal Server Error while deleting file.") true)
  /\ cache_after options env req fs = fs.
Proof.
  intros Hv Hu Hm Hf. enter_listener Hv Hu Hm. run_handler. cbn.
  rewrite Hf. cbn. destruct (String.eqb (err_code err) "ENOENT"); cbn; auto.
Qed.

Lemma serve_other_method env req fs code :
  valid_code code = true -> url req = String "/" code ->
  method req <> "GET" -> method req <> "PUT" -> method req <> "DELETE" ->
  response options env req fs =
    mkResponse true 405 text_plain (sent_body req (Buffer_from "Method Not Allowed")) true
  /\ cache_after options env req fs = fs.
Proof.
  intros Hv Hu H1 H2 H3. unfold response, cache_after, serve, requestListener.
  rewrite Hu, (getHttpCodeFromUrl_valid _ Hv), (valid_code_nonempty _ Hv).
  apply String.eqb_neq in H1, H2, H3. rewrite H1, H2, H3. auto.
Qed.

End ServerFacts.

(** ** The claims *)

Lemma code_path_spec (u : string) :
  code_path u = true <-> exists code, valid_code code = true /\ u = String "/" code.
Proof.
  split.
  - destruct u as [|c code]; [discriminate|]. cbn [code_path].
    intros H. apply andb_true_iff in H as [Hc Hv].
    apply Ascii.eqb_eq in Hc as ->. eauto.
  - intros (code & Hv & ->). cbn. exact Hv.
Qed.

(** The router accepts exactly the paths of the form [/DDD]. *)
Lemma getHttpCodeFromUrl_accepts (u : string) :
  code_path u = true <-> is_Some (getHttpCodeFromUrl u).
Proof.
  rewrite code_path_spec. split.
  - intros (code & Hv & ->). exists code. now apply getHttpCodeFromUrl_valid.
  - intros [code H]. apply getHttpCodeFromUrl_Some in H. eauto.
Qed.

Section Claims.

Variable options : Options.

(** The cases of a request, each with what [serve] does in it. *)
Ltac by_cases env req fs :=
  let code := fresh "code" in
  let Hcode := fresh "Hcode" in
  destruct (getHttpCodeFromUrl (url req)) as [code|] eqn:Hcode;
  [ apply getHttpCodeFromUrl_Some in Hcode as [Hv Hu];
    destruct (String.eqb_spec (method req) "GET") as [Hm|HnG];
    [ destruct (serve_GET options env req fs code Hv Hu Hm) as [Hr Hf]
    | destruct (String.eqb_spec (method req) "PUT") as [Hm|HnP];
      [ destruct (body_error req) as [err|] eqn:Hbe;
        [ destruct (serve_PUT_aborted options env req fs code err Hv Hu Hm Hbe) as [Hr Hf]
        | assert (Hbody : Buffer_concat (body_chunks req) = []
                          \/ Buffer_concat (body_chunks req) <> [])
            by (destruct (Buffer_concat (body_chunks req)); [left|right]; easy);
          destruct Hbody as [Hbody|Hbody];
          [ destruct (serve_PUT_empty options env req fs code Hv Hu Hm Hbe Hbody) as [Hr Hf]
          | destruct (write_fault env) as [wf|] eqn:Hwf;
            [ destruct (serve_PUT_write_failed options env req fs code wf
                          Hv Hu Hm Hbe Hbody Hwf) as [Hr Hf]
            | destruct (serve_PUT_stored options env req fs code
                          Hv Hu Hm Hbe Hbody Hwf) as [Hr Hf] ] ] ]
      | destruct (String.eqb_spec (method req) "DELETE") as [Hm|HnD];
        [ destruct (unlink_fault env) as [uerr|] eqn:Huf;
          [ destruct (serve_DELETE_failed options env req fs code uerr Hv Hu Hm Huf)
              as [Hr Hf]
          | destruct (fs !! getCacheFilePath options code) as [old|] eqn:Hold;
            [ destruct (serve_DELETE_removed options env req fs code Hv Hu Hm Huf
                          (ltac:(rewrite Hold; eauto))) as [Hr Hf]
            | destruct (serve_DELETE_absent options env req fs code Hv Hu Hm Huf Hold)
                as [Hr Hf] ] ]
        | destruct (serve_other_method options env req fs code Hv Hu HnG HnP HnD)
            as [Hr Hf] ] ] ]
  | pose proof (serve_invalid options env req fs Hcode) as Hinv;
    assert (Hr : response options env req fs = res (serve options env req fs))
      by reflexivity;
    assert (Hf : cache_after options env req fs = fs)
      by (unfold cache_after; now rewrite Hinv);
    rewrite Hinv in Hr; cbn [res] in Hr ].

(** A request changes no file other than the one of its code. *)
Lemma frame env req fs code p :
  valid_code code = true -> url req = String "/" code -> p <> getCacheFilePath options code ->
  cache_after options env req fs !! p = fs !! p.
Proof.
  intros Hv0 Hu0 Hp. by_cases env req fs.
  all: try (rewrite Hf; reflexivity).
  all: assert (code0 = code) as -> by congruence.
  - rewrite Hf. destruct (wf_left wf); [|reflexivity]. now rewrite lookup_insert_ne.
  - rewrite Hf. now rewrite lookup_insert_ne.
  - rewrite Hf. now rewrite lookup_delete_ne.
Qed.

(** *** Router *)

(** C3, as amended. A request whose path is not a slash followed by
    exactly three ASCII digits is answered with status 404 and
    [Content-Type: text/plain], whatever its method, its body and the state
    of the cache.  The body of the answer is the explanatory message about
    the URL format for every method other than HEAD; the answer to a HEAD
    request has no body. *)
Theorem C3_invalid_path_is_404 (env : Env) (req : IncomingMessage)
    (fs : gmap string Buffer) :
  code_path (url req) = false ->
  response options env req fs =
    mkResponse true 404 text_plain
      (sent_body req
         (Buffer_from "Invalid URL format. Use /XXX where XXX is a 3-digit HTTP code."))
      true
  /\ (method req <> "HEAD" ->
      body (response options env req fs)
      = Buffer_from "Invalid URL format. Use /XXX where XXX is a 3-digit HTTP code.")
  /\ (method req = "HEAD" -> body (response options env req fs) = []).
Proof.
  intros H.
  assert (Hnone : getHttpCodeFromUrl (url req) = None).
  { destruct (getHttpCodeFromUrl (url req)) eqn:E; [|reflexivity].
    assert (code_path (url req) = true) by (apply getHttpCodeFromUrl_accepts; eauto).
    congruence. }
  unfold response. rewrite (serve_invalid options env req fs Hnone). cbn [res body].
  unfold sent_body, response_has_body. repeat split.
  - intros Hne. apply String.eqb_neq in Hne. now rewrite Hne.
  - intros ->. reflexivity.
Qed.

(** C6, as amended. On a path [/DDD], every method other than GET, PUT and
    DELETE is answered with status 405 and [Content-Type: text/plain].  The
    body of the answer is "Method Not Allowed" for every such method other
    than HEAD; the answer to a HEAD request has no body. *)
Theorem C6_other_method_is_405 (env : Env) (req : IncomingMessage)
    (fs : gmap string Buffer) :
  code_path (url req) = true ->
  method req <> "GET" -> method req <> "PUT" -> method req <> "DELETE" ->
  response options env req fs =
    mkResponse true 405 text_plain (sent_body req (Buffer_from "Method Not Allowed")) true
  /\ (method req <> "HEAD" ->
      body (response options env req fs) = Buffer_from "Method Not Allowed")
  /\ (method req = "HEAD" -> body (response options env req fs) = []).
Proof.
  intros Hp H1 H2 H3. apply code_path_spec in Hp as (code & Hv & Hu).
  destruct (serve_other_method options env req fs code Hv Hu H1 H2 H3) as [-> _].
  cbn [body]. unfold sent_body, response_has_body. repeat split.
  - intros Hne. apply String.eqb_neq in Hne. now rewrite Hne.
  - intros ->. reflexivity.
Qed.

(** *** PUT *)

(** C4. A PUT on [/DDD] whose body was read to its end and is empty is
    answered with status 400 and the body "Bad Request: Image body is
    empty."; the cache is left exactly as it was: no entry is changed and
    none is created. *)
Theorem C4_empty_put_is_400 (env : Env) (req : IncomingMessage)
    (fs : gmap string Buffer) (code : string) :
  valid_code code = true -> url req = String "/" code -> method req = "PUT" ->
  body_error req = None -> length (Buffer_concat (body_chunks req)) = 0%nat ->
  response options env req fs =
    mkResponse true 400 text_plain (Buffer_from "Bad Request: Image body is empty.") true
  /\ cache_after options env req fs = fs.
Proof.
  intros Hv Hu Hm He Hl. apply serve_PUT_empty with (code := code); auto.
  now destruct (Buffer_concat (body_chunks req)).
Qed.

(** C7. A PUT on [/DDD] whose body stream fails is answered with status
    500, and nothing is written: the chunks received so far are dropped and
    the cache, the entry of the code included, is exactly as it was. *)
Theorem C7_aborted_put_is_500 (env : Env) (req : IncomingMessage)
    (fs : gmap string Buffer) (code : string) (err : JsError) :
  valid_code code = true -> url req = String "/" code -> method req = "PUT" ->
  body_error req = Some err ->
  response options env req fs =
    mkResponse true 500 text_plain (Buffer_from "Internal Server Error.") true
  /\ cache_after options env req fs = fs.
Proof.
  intros Hv Hu Hm He. now apply serve_PUT_aborted with (code := code) (err := err).
Qed.

(** A PUT is answered 201 exactly when its body arrived whole and
    non-empty and the write did not fail; the entry is then the body. *)
Lemma PUT_created (env : Env) (req : IncomingMessage) (fs : gmap string Buffer)
    (code : string) :
  valid_code code = true -> url req = String "/" code -> method req = "PUT" ->
  statusCode (response options env req fs) = 201 ->
  body_error req = None /\ Buffer_concat (body_chunks req) <> [] /\ write_fault env = None
  /\ cache_after options env req fs =
     <[getCacheFilePath options code := Buffer_concat (body_chunks req)]> fs.
Proof.
  intros Hv0 Hu0 Hm0 Hs. by_cases env req fs; rewrite Hr in Hs; cbn in Hs;
    try discriminate Hs; try congruence.
  assert (code0 = code) as -> by congruence. auto.
Qed.

Lemma serve_all_snoc (reqs : list (Env * IncomingMessage)) (env : Env)
    (req : IncomingMessage) (fs : gmap string Buffer) :
  serve_all options (reqs ++ [(env, req)])%list fs =
  (((serve_all options reqs fs).1
    ++ [response options env req (serve_all options reqs fs).2])%list,
   cache_after options env req (serve_all options reqs fs).2).
Proof.
  revert fs. induction reqs as [|[e r] reqs IH]; intros fs.
  - reflexivity.
  - cbn [app serve_all]. rewrite IH.
    destruct (serve_all options reqs (files (serve options e r fs))). reflexivity.
Qed.

(** C2. After any sequence of PUTs on [/DDD], all answered 201 (so each
    body arrived whole and was not empty), a GET on [/DDD] whose read does
    not fail is answered with status 200, the headers
    [Content-Type: image/jpeg] and [X-Cache: HIT], and exactly the bytes of
    the last PUT: the earlier bodies and the cache before them leave no
    trace in it. *)
Theorem C2_get_returns_last_put (code : string) (puts : list (Env * IncomingMessage))
    (envL : Env) (reqL : IncomingMessage) (env : Env) (fs : gmap string Buffer) :
  valid_code code = true ->
  Forall (fun er => method er.2 = "PUT" /\ url er.2 = String "/" code)
    (puts ++ [(envL, reqL)])%list ->
  Forall (fun r => statusCode r = 201)
    (serve_all options (puts ++ [(envL, reqL)])%list fs).1 ->
  read_fault env = None ->
  response options env (GET (String "/" code))
    (serve_all options (puts ++ [(envL, reqL)])%list fs).2 =
  mkResponse true 200 [("Content-Type", "image/jpeg"); ("X-Cache", "HIT")]
    (Buffer_concat (body_chunks reqL)) true.
Proof.
  intros Hv Hputs Hok Hread. rewrite serve_all_snoc in *. cbn [fst snd] in *.
  apply Forall_app in Hputs as [_ HL]. apply Forall_app in Hok as [_ HokL].
  apply Forall_inv in HL as [HmL HuL]. apply Forall_inv in HokL. cbn [snd] in *.
  destruct (PUT_created envL reqL _ code Hv HuL HmL HokL) as (_ & _ & _ & ->).
  destruct (serve_GET options env (GET (String "/" code))
              (<[getCacheFilePath options code := Buffer_concat (body_chunks reqL)]>
                 (serve_all options puts fs).2) code Hv eq_refl eq_refl) as [-> _].
  unfold streamed, stream_events. rewrite Hread, lookup_insert_eq. reflexivity.
Qed.

(** *** DELETE *)

(** C5. When [unlink] meets no other I/O failure, a DELETE on [/DDD] is
    answered 200 exactly when the code had an entry.  In that case the
    response is the plain-text confirmation and the entry is gone
    afterwards; when the code has no entry (never PUT, or already removed)
    the response is 404 with the plain-text body "Not Found: Image not in
    cache." and the cache is unchanged. *)
Theorem C5_delete_present_or_absent (env : Env) (req : IncomingMessage)
    (fs : gmap string Buffer) (code : string) :
  valid_code code = true -> url req = String "/" code -> method req = "DELETE" ->
  unlink_fault env = None ->
  (statusCode (response options env req fs) = 200
   <-> is_Some (fs !! getCacheFilePath options code))
  /\ (is_Some (fs !! getCacheFilePath options code) ->
      response options env req fs =
        mkResponse true 200 text_plain
          (Buffer_from ("OK: Image for code " +:+ code +:+ " deleted from cache.")) true
      /\ cache_after options env req fs !! getCacheFilePath options code = None)
  /\ (fs !! getCacheFilePath options code = None ->
      response options env req fs =
        mkResponse true 404 text_plain (Buffer_from "Not Found: Image not in cache.") true
      /\ cache_after options env req fs = fs).
Proof.
  intros Hv Hu Hm Hf.
  destruct (fs !! getCacheFilePath options code) as [old|] eqn:Hold.
  - destruct (serve_DELETE_removed options env req fs code Hv Hu Hm Hf) as [Hr Hc].
    { rewrite Hold. eauto. }
    rewrite Hr, Hc. cbn [statusCode]. split; [|split].
    + split; eauto.
    + intros _. split; [reflexivity | apply lookup_delete_eq].
    + discriminate.
  - destruct (serve_DELETE_absent options env req fs code Hv Hu Hm Hf Hold) as [Hr Hc].
    rewrite Hr, Hc. cbn [statusCode]. split; [|split].
    + split; [discriminate | intros [x Hx]; discriminate Hx].
    + intros [x Hx]. discriminate Hx.
    + auto.
Qed.

(** Whatever [unlink] meets, a DELETE answered 200 found an entry and
    removed it. *)
Lemma DELETE_200_removed (env : Env) (req : IncomingMessage)
    (fs : gmap string Buffer) (code : string) :
  valid_code code = true -> url req = String "/" code -> method req = "DELETE" ->
  statusCode (response options env req fs) = 200 ->
  is_Some (fs !! getCacheFilePath options code)
  /\ cache_after options env req fs = delete (getCacheFilePath options code) fs.
Proof.
  intros Hv0 Hu0 Hm0 Hs. by_cases env req fs; rewrite Hr in Hs; cbn in Hs;
    try discriminate Hs; try congruence.
  - destruct (String.eqb (err_code uerr) "ENOENT"); discriminate Hs.
  - assert (code0 = code) as -> by congruence. rewrite Hold. eauto.
Qed.

(** *** GET *)

(** The GET handler answers 200 with the image headers in every case: the
    status line is written before the stream has opened the file. *)
Lemma GET_is_always_200 (env : Env) (req : IncomingMessage)
    (fs : gmap string Buffer) (code : string) :
  valid_code code = true -> url req = String "/" code -> method req = "GET" ->
  statusCode (response options env req fs) = 200
  /\ headers (response options env req fs)
     = [("Content-Type", "image/jpeg"); ("X-Cache", "HIT")].
Proof.
  intros Hv Hu Hm. now destruct (serve_GET options env req fs code Hv Hu Hm) as [-> _].
Qed.

(** For a code without an entry the stream fails to open; the listener
    finds the headers sent and ends the response: 200 with an empty body. *)
Lemma GET_missing_entry (env : Env) (req : IncomingMessage)
    (fs : gmap string Buffer) (code : string) :
  valid_code code = true -> url req = String "/" code -> method req = "GET" ->
  fs !! getCacheFilePath options code = None ->
  response options env req fs =
    mkResponse true 200 [("Content-Type", "image/jpeg"); ("X-Cache", "HIT")] [] true.
Proof.
  intros Hv Hu Hm Hnone. destruct (serve_GET options env req fs code Hv Hu Hm) as [-> _].
  unfold streamed, stream_events. rewrite Hnone. cbn [default].
  destruct (read_fault env); [now rewrite take_nil | reflexivity].
Qed.

(** *** Error bodies *)

Lemma streamed_without_messages (env : Env) (fs : gmap string Buffer) (p : string) :
  streamed (read_fault (env_without_messages env)) fs p = streamed (read_fault env) fs p.
Proof.
  unfold streamed, stream_events. cbn. destruct (read_fault env); cbn; [reflexivity|].
  now destruct (fs !! p).
Qed.

(** Blanking the error messages changes neither the response nor the cache. *)
Lemma serve_without_messages (env : Env) (req : IncomingMessage)
    (fs : gmap string Buffer) :
  response options (env_without_messages env) (req_without_messages req) fs
  = response options env req fs
  /\ cache_after options (env_without_messages env) (req_without_messages req) fs
     = cache_after options env req fs.
Proof.
  by_cases env req fs; rewrite Hr, Hf.
  - destruct (serve_GET options (env_without_messages env) (req_without_messages req)
                fs code Hv Hu Hm) as [-> ->].
    now rewrite streamed_without_messages.
  - apply (serve_PUT_aborted options _ (req_without_messages req) fs code
             (without_message err) Hv Hu Hm).
    cbn. now rewrite Hbe.
  - apply (serve_PUT_empty options _ (req_without_messages req) fs code Hv Hu Hm);
      cbn; [now rewrite Hbe | exact Hbody].
  - destruct (serve_PUT_write_failed options (env_without_messages env)
                (req_without_messages req) fs code
                (mkWriteFault (wf_left wf) (without_message (wf_error wf)))
                Hv Hu Hm) as [-> ->]; cbn; try (now rewrite ?Hbe, ?Hwf); auto.
  - apply (serve_PUT_stored options _ (req_without_messages req) fs code Hv Hu Hm);
      cbn; [now rewrite Hbe | exact Hbody | now rewrite Hwf].
  - destruct (serve_DELETE_failed options (env_without_messages env)
                (req_without_messages req) fs code (without_message uerr)
                Hv Hu Hm) as [-> ->]; cbn; [now rewrite Huf | auto].
  - apply (serve_DELETE_removed options _ (req_without_messages req) fs code Hv Hu Hm);
      cbn; [now rewrite Huf | rewrite Hold; eauto].
  - apply (serve_DELETE_absent options _ (req_without_messages req) fs code Hv Hu Hm);
      cbn; [now rewrite Huf | exact Hold].
  - apply (serve_other_method options _ (req_without_messages req) fs code Hv Hu);
      assumption.
  - unfold response, cache_after.
    rewrite (serve_invalid options _ (req_without_messages req) fs Hcode). auto.
Qed.

(** C8. Two executions that differ only in the messages of the internal
    errors they meet (the failure of the request body, of the read stream,
    of [writeFile], of [unlink]) send identical responses; and every
    response with a 5xx status is [text/plain] with one of three fixed
    bodies.  The error's message reaches the console only. *)
Theorem C8_error_bodies_are_fixed (env1 env2 : Env) (req1 req2 : IncomingMessage)
    (fs : gmap string Buffer) :
  differ_only_in_messages env1 req1 env2 req2 ->
  response options env1 req1 fs = response options env2 req2 fs
  /\ (500 <= statusCode (response options env1 req1 fs) ->
      headers (response options env1 req1 fs) = text_plain
      /\ In (body (response options env1 req1 fs)) internal_error_bodies).
Proof.
  intros [He Hq]. split.
  - destruct (serve_without_messages env1 req1 fs) as [<- _].
    destruct (serve_without_messages env2 req2 fs) as [<- _].
    now rewrite He, Hq.
  - clear He Hq. intros Hs. by_cases env1 req1 fs; rewrite Hr in Hs |- *;
      cbn in Hs |- *; try lia; auto.
    destruct (String.eqb (err_code uerr) "ENOENT"); cbn in Hs |- *; [lia | auto].
Qed.

(** *** Cache paths and the frame *)

(** C9. For a URL the router accepts, the code is the three digits after
    the slash, and the cache file is [path.join] of the cache directory
    and [<code>.jpeg], which is the directory's normalized prefix followed
    by that file name unchanged.  The file name is a single path segment
    (no slash, not a dot name), so the file lies directly in the cache
    directory, and two accepted URLs with the same file are the same URL. *)
Theorem C9_cache_path_of_accepted_url (u code : string) :
  getHttpCodeFromUrl u = Some code ->
  valid_code code = true /\ u = String "/" code
  /\ getCacheFilePath options code = posix_join [cache options; code +:+ ".jpeg"]
  /\ getCacheFilePath options code = dir_prefix (cache options) +:+ code +:+ ".jpeg"
  /\ plain_name (code +:+ ".jpeg") = true
  /\ (forall u' code', getHttpCodeFromUrl u' = Some code' ->
        getCacheFilePath options code' = getCacheFilePath options code ->
        code' = code /\ u' = u).
Proof.
  intros H. apply getHttpCodeFromUrl_Some in H as [Hv ->].
  repeat split; auto using getCacheFilePath_valid, code_file_plain.
  - apply getHttpCodeFromUrl_Some in H as [Hv' _].
    now apply (getCacheFilePath_inj options).
  - apply getHttpCodeFromUrl_Some in H as [Hv' ->].
    f_equal. now apply (getCacheFilePath_inj options).
Qed.

(** C10. A request on [/DDD], whatever its method and whatever failures it
    meets, leaves every file other than the one of its code as it was; in
    particular the entry of every other code is untouched.  A GET leaves
    the whole cache as it was. *)
Theorem C10_only_own_file_is_touched (env : Env) (req : IncomingMessage)
    (fs : gmap string Buffer) (code : string) :
  valid_code code = true -> url req = String "/" code ->
  (forall p, p <> getCacheFilePath options code ->
     cache_after options env req fs !! p = fs !! p)
  /\ (forall code', valid_code code' = true -> code' <> code ->
       cache_after options env req fs !! getCacheFilePath options code'
       = fs !! getCacheFilePath options code')
  /\ (method req = "GET" -> cache_after options env req fs = fs).
Proof.
  intros Hv Hu. split; [|split].
  - intros p Hp. now apply frame with (code := code).
  - intros code' Hv' Hne. apply frame with (code := code); auto.
    intros E. apply Hne. now apply (getCacheFilePath_inj options).
  - intros Hm. now destruct (serve_GET options env req fs code Hv Hu Hm).
Qed.

End Claims.

(** ** Worked examples *)

(** C1. GET on a code without an entry.  The specification says 404 with
    a "not found" body; the handler answers 200 with the image headers and an
    empty body, on an empty cache as well as after a PUT and a successful
    DELETE of the same code.  The 404 branch of [handleGet] sits in the
    [catch] of a [try] in which nothing throws for a missing file. *)
Theorem C1_get_of_missing_code_is_200 :
  response example_options no_faults (GET "/404") ∅
  = mkResponse true 200 [("Content-Type", "image/jpeg"); ("X-Cache", "HIT")] [] true
  /\ (let fs1 := cache_after example_options no_faults (PUT "/404" [Buffer_from "hello"]) ∅ in
      let fs2 := cache_after example_options no_faults (DELETE "/404") fs1 in
      statusCode (response example_options no_faults (DELETE "/404") fs1) = 200
      /\ fs2 !! getCacheFilePath example_options "404" = None
      /\ response example_options no_faults (GET "/404") fs2
         = mkResponse true 200 [("Content-Type", "image/jpeg"); ("X-Cache", "HIT")] [] true).
Proof.
  split.
  - apply GET_missing_entry with (code := "404"); reflexivity.
  - vm_compute. auto.
Qed.

Lemma C2_witness :
  response example_options no_faults (GET "/404")
    (serve_all example_options
       ([(no_faults, PUT "/404" [Buffer_from "hello"])]
        ++ [(no_faults, PUT "/404" [Buffer_from "wor"; Buffer_from "ld"])])%list ∅).2
  = mkResponse true 200 [("Content-Type", "image/jpeg"); ("X-Cache", "HIT")]
      (Buffer_from "world") true.
Proof.
  apply (C2_get_returns_last_put example_options "404"
           [(no_faults, PUT "/404" [Buffer_from "hello"])]
           no_faults (PUT "/404" [Buffer_from "wor"; Buffer_from "ld"]) no_faults ∅).
  - reflexivity.
  - repeat constructor.
  - vm_compute. repeat constructor.
  - reflexivity.
Defined.

Lemma C3_witness :
  code_path "/1234" = false
  /\ response example_options no_faults (mkRequest "PATCH" "/1234" [] None) ∅
     = mkResponse true 404 text_plain
         (Buffer_from "Invalid URL format. Use /XXX where XXX is a 3-digit HTTP code.")
         true.
Proof.
  split; [reflexivity|].
  apply (C3_invalid_path_is_404 example_options no_faults
           (mkRequest "PATCH" "/1234" [] None) ∅).
  reflexivity.
Defined.

(** C3, as first stated, fails for HEAD: the answer carries no message. *)
Lemma C3_counterexample :
  code_path (url (mkRequest "HEAD" "/abc" [] None)) = false
  /\ response example_options no_faults (mkRequest "HEAD" "/abc" [] None) ∅
     = mkResponse true 404 text_plain [] true
  /\ response example_options no_faults (mkRequest "HEAD" "/abc" [] None) ∅
     <> mkResponse true 404 text_plain
          (Buffer_from "Invalid URL format. Use /XXX where XXX is a 3-digit HTTP code.")
          true.
Proof.
  split; [reflexivity|]. split; [reflexivity|]. vm_compute. discriminate.
Qed.

Lemma C4_witness :
  response example_options no_faults (PUT "/200" [[]; []])
    {[ "cache/200.jpeg" := Buffer_from "old" ]}
  = mkResponse true 400 text_plain (Buffer_from "Bad Request: Image body is empty.") true
  /\ cache_after example_options no_faults (PUT "/200" [[]; []])
       {[ "cache/200.jpeg" := Buffer_from "old" ]}
     = {[ "cache/200.jpeg" := Buffer_from "old" ]}.
Proof.
  apply (C4_empty_put_is_400 example_options no_faults (PUT "/200" [[]; []]) _ "200");
    reflexivity.
Defined.

Lemma C5_witness :
  (statusCode (response example_options no_faults (DELETE "/200")
                 {[ "cache/200.jpeg" := Buffer_from "old" ]}) = 200
   <-> is_Some (({[ "cache/200.jpeg" := Buffer_from "old" ]} : gmap string Buffer)
                  !! getCacheFilePath example_options "200"))
  /\ is_Some (({[ "cache/200.jpeg" := Buffer_from "old" ]} : gmap string Buffer)
                !! getCacheFilePath example_options "200").
Proof.
  split.
  - apply (C5_delete_present_or_absent example_options no_faults (DELETE "/200")
             {[ "cache/200.jpeg" := Buffer_from "old" ]} "200"); reflexivity.
  - vm_compute. eauto.
Defined.

Lemma C6_witness :
  response example_options no_faults (mkRequest "PATCH" "/200" [] None) ∅
  = mkResponse true 405 text_plain (Buffer_from "Method Not Allowed") true.
Proof.
  apply (C6_other_method_is_405 example_options no_faults
           (mkRequest "PATCH" "/200" [] None) ∅);
    [reflexivity | discriminate ..].
Defined.

(** C6, as first stated, fails for HEAD: the answer carries no message. *)
Lemma C6_counterexample :
  code_path (url (mkRequest "HEAD" "/200" [] None)) = true
  /\ method (mkRequest "HEAD" "/200" [] None) <> "GET"
  /\ method (mkRequest "HEAD" "/200" [] None) <> "PUT"
  /\ method (mkRequest "HEAD" "/200" [] None) <> "DELETE"
  /\ response example_options no_faults (mkRequest "HEAD" "/200" [] None) ∅
     = mkResponse true 405 text_plain [] true
  /\ response example_options no_faults (mkRequest "HEAD" "/200" [] None) ∅
     <> mkResponse true 405 text_plain (Buffer_from "Method Not Allowed") true.
Proof.
  repeat split; first [reflexivity | discriminate | (vm_compute; discriminate)].
Qed.

Lemma C7_witness :
  response example_options no_faults
    (mkRequest "PUT" "/200" [Buffer_from "half"] (Some (mkError "ECONNRESET" "aborted")))
    {[ "cache/200.jpeg" := Buffer_from "old" ]}
  = mkResponse true 500 text_plain (Buffer_from "Internal Server Error.") true
  /\ cache_after example_options no_faults
       (mkRequest "PUT" "/200" [Buffer_from "half"] (Some (mkError "ECONNRESET" "aborted")))
       {[ "cache/200.jpeg" := Buffer_from "old" ]}
     = {[ "cache/200.jpeg" := Buffer_from "old" ]}.
Proof.
  apply (C7_aborted_put_is_500 example_options no_faults _ _ "200"
           (mkError "ECONNRESET" "aborted")); reflexivity.
Defined.

Lemma C8_witness :
  response example_options
    (mkEnv None (Some (mkWriteFault None (mkError "EACCES" "permission denied, open a"))) None)
    (PUT "/200" [Buffer_from "img"]) ∅
  = response example_options
      (mkEnv None (Some (mkWriteFault None (mkError "EACCES" "read-only file system"))) None)
      (PUT "/200" [Buffer_from "img"]) ∅
  /\ statusCode (response example_options
       (mkEnv None (Some (mkWriteFault None (mkError "EACCES" "permission denied, open a"))) None)
       (PUT "/200" [Buffer_from "img"]) ∅) = 500.
Proof.
  split; [|reflexivity].
  apply (C8_error_bodies_are_fixed example_options). split; reflexivity.
Defined.

Lemma C9_witness :
  getCacheFilePath example_options "404" = "cache/404.jpeg"
  /\ getCacheFilePath example_options "404"
     = dir_prefix (cache example_options) +:+ "404" +:+ ".jpeg".
Proof.
  split; [reflexivity|].
  apply (C9_cache_path_of_accepted_url example_options "/404" "404"). reflexivity.
Defined.

Lemma C10_witness :
  cache_after example_options no_faults (PUT "/200" [Buffer_from "new"])
    {[ "cache/404.jpeg" := Buffer_from "other" ]} !! getCacheFilePath example_options "404"
  = ({[ "cache/404.jpeg" := Buffer_from "other" ]} : gmap string Buffer)
      !! getCacheFilePath example_options "404".
Proof.
  apply (C10_only_own_file_is_touched example_options no_faults
           (PUT "/200" [Buffer_from "new"]) _ "200"); [reflexivity ..| discriminate].
Defined.

(** * Further properties of the request handling *)

(** ** Each case of a request, run to its end *)

Ltac enter_run Hv Hu Hm :=
  unfold run, requestListener, initial_world, response_has_body;
  rewrite Hu, (getHttpCodeFromUrl_valid _ Hv), (valid_code_nonempty _ Hv), Hm;
  cbn [String.eqb Ascii.eqb Bool.eqb negb].

Ltac run_body :=
  unfold handleGet, handlePut, handleDelete, run_stream, try_catch, mbind, M_bind,
    mret, M_ret, throw, console_log, console_error, writeHead, res_end_text, res_end,
    res_write, body_bytes, get_headersSent, createReadStream, fs_writeFile, fs_unlink.

Section Runs.

Variable options : Options.

Lemma run_invalid env req fs :
  getHttpCodeFromUrl (url req) = None ->
  run options env req fs =
  (Normal tt,
   mkWorld fs
     (mkResponse true 404 text_plain
        (sent_body req
           (Buffer_from "Invalid URL format. Use /XXX where XXX is a 3-digit HTTP code."))
        true)
     [] (response_has_body req)).
Proof. intros H. unfold run, requestListener. rewrite H. reflexivity. Qed.

Lemma run_other_method env req fs code :
  valid_code code = true -> url req = String "/" code ->
  method req <> "GET" -> method req <> "PUT" -> method req <> "DELETE" ->
  run options env req fs =
  (Normal tt,
   mkWorld fs
     (mkResponse true 405 text_plain (sent_body req (Buffer_from "Method Not Allowed")) true)
     [Log ("Request: " +:+ method req +:+ " " +:+ url req)] (response_has_body req)).
Proof.
  intros Hv Hu H1 H2 H3. unfold run, requestListener.
  assert (Hg : getHttpCodeFromUrl (url req) = Some code)
    by (apply getHttpCodeFromUrl_Some; auto).
  rewrite Hg.
  rewrite (valid_code_nonempty _ Hv).
  apply String.eqb_neq in H1, H2, H3. rewrite H1, H2, H3. reflexivity.
Qed.

Lemma run_GET env req fs code :
  valid_code code = true -> url req = String "/" code -> method req = "GET" ->
  run options env req fs =
  (Normal tt,
   mkWorld fs
     (mkResponse true 200 image_headers
        (streamed (read_fault env) fs (getCacheFilePath options code)) true)
     ([Log ("Request: " +:+ "GET" +:+ " " +:+ String "/" code);
       Log ("[GET " +:+ code +:+ "] Image served from cache (200 OK).")]
      ++ stream_error_log code (read_fault env) fs (getCacheFilePath options code))%list
     true).
Proof.
  intros Hv Hu Hm. enter_run Hv Hu Hm. run_body. unfold streamed, stream_error_log. cbn.
  destruct (stream_events _ _ _); cbn; rewrite ?app_nil_r; reflexivity.
Qed.

Lemma run_PUT_aborted env req fs code err :
  valid_code code = true -> url req = String "/" code -> method req = "PUT" ->
  body_error req = Some err ->
  run options env req fs =
  (Normal tt,
   mkWorld fs (mkResponse true 500 text_plain (Buffer_from "Internal Server Error.") true)
     [Log ("Request: " +:+ "PUT" +:+ " " +:+ String "/" code);
      LogError ("[PUT " +:+ code +:+ "] Error reading request body: " +:+ err_message err)] true).
Proof.
  intros Hv Hu Hm He. enter_run Hv Hu Hm. run_body. cbn.
  rewrite for_await_push_run, He. reflexivity.
Qed.

Lemma run_PUT_empty env req fs code :
  valid_code code = true -> url req = String "/" code -> method req = "PUT" ->
  body_error req = None -> Buffer_concat (body_chunks req) = [] ->
  run options env req fs =
  (Normal tt,
   mkWorld fs
     (mkResponse true 400 text_plain (Buffer_from "Bad Request: Image body is empty.") true)
     [Log ("Request: " +:+ "PUT" +:+ " " +:+ String "/" code)] true).
Proof.
  intros Hv Hu Hm He Hb. enter_run Hv Hu Hm. run_body. cbn.
  rewrite for_await_push_run, He. cbn. rewrite Hb. reflexivity.
Qed.

Lemma run_PUT_stored env req fs code :
  valid_code code = true -> url req = String "/" code -> method req = "PUT" ->
  body_error req = None -> Buffer_concat (body_chunks req) <> [] ->
  write_fault env = None ->
  run options env req fs =
  (Normal tt,
   mkWorld (<[getCacheFilePath options code := Buffer_concat (body_chunks req)]> fs)
     (mkResponse true 201 text_plain
        (Buffer_from ("Created: Image for code " +:+ code +:+ " saved/replaced in cache."))
        true)
     [Log ("Request: " +:+ "PUT" +:+ " " +:+ String "/" code);
      Log ("[PUT " +:+ code +:+ "] Image saved/replaced (201 Created).")] true).
Proof.
  intros Hv Hu Hm He Hb Hw. enter_run Hv Hu Hm. run_body. cbn.
  rewrite for_await_push_run, He. cbn.
  destruct (Buffer_concat (body_chunks req)) as [|x data] eqn:E; [congruence|].
  cbn. rewrite Hw. reflexivity.
Qed.

Lemma run_PUT_write_failed env req fs code f :
  valid_code code = true -> url req = String "/" code -> method req = "PUT" ->
  body_error req = None -> Buffer_concat (body_chunks req) <> [] ->
  write_fault env = Some f ->
  run options env req fs =
  (Normal tt,
   mkWorld
     (match wf_left f with
      | Some partial => <[getCacheFilePath options code := partial]> fs
      | None => fs
      end)
     (mkResponse true 500 text_plain
        (Buffer_from "Internal Server Error while saving file.") true)
     [Log ("Request: " +:+ "PUT" +:+ " " +:+ String "/" code);
      LogError ("[PUT " +:+ code +:+ "] Error saving file: " +:+ err_message (wf_error f))] true).
Proof.
  intros Hv Hu Hm He Hb Hw. enter_run Hv Hu Hm. run_body. cbn.
  rewrite for_await_push_run, He. cbn.
  destruct (Buffer_concat (body_chunks req)) as [|x data] eqn:E; [congruence|].
  cbn. rewrite Hw. cbn. destruct (wf_left f); reflexivity.
Qed.

Lemma run_DELETE_removed env req fs code :
  valid_code code = true -> url req = String "/" code -> method req = "DELETE" ->
  unlink_fault env = None -> is_Some (fs !! getCacheFilePath options code) ->
  run options env req fs =
  (Normal tt,
   mkWorld (delete (getCacheFilePath options code) fs)
     (mkResponse true 200 text_plain
        (Buffer_from ("OK: Image for code " +:+ code +:+ " deleted from cache.")) true)
     [Log ("Request: " +:+ "DELETE" +:+ " " +:+ String "/" code);
      Log ("[DELETE " +:+ code +:+ "] Image deleted (200 OK).")] true).
Proof.
  intros Hv Hu Hm Hf [data Hd]. enter_run Hv Hu Hm. run_body. cbn.
  rewrite Hf, Hd. reflexivity.
Qed.

Lemma run_DELETE_absent env req fs code :
  valid_code code = true -> url req = String "/" code -> method req = "DELETE" ->
  unlink_fault env = None -> fs !! getCacheFilePath options code = None ->
  run options env req fs =
  (Normal tt,
   mkWorld fs
     (mkResponse true 404 text_plain (Buffer_from "Not Found: Image not in cache.") true)
     [Log ("Request: " +:+ "DELETE" +:+ " " +:+ String "/" code);
      Log ("[DELETE " +:+ code +:+ "] Image not found (404 Not Found).")] true).
Proof.
  intros Hv Hu Hm Hf Hd. enter_run Hv Hu Hm. run_body. cbn.
  rewrite Hf, Hd. reflexivity.
Qed.

Lemma run_DELETE_failed env req fs code err :
  valid_code code = true -> url req = String "/" code -> method req = "DELETE" ->
  unlink_fault env = Some err ->
  run options env req fs =
  (Normal tt,
   if String.eqb (err_code err) "ENOENT"
   then mkWorld fs
          (mkResponse true 404 text_plain (Buffer_from "Not Found: Image not in cache.") true)
          [Log ("Request: " +:+ "DELETE" +:+ " " +:+ String "/" code);
           Log ("[DELETE " +:+ code +:+ "] Image not found (404 Not Found).")] true
   else mkWorld fs
          (mkResponse true 500 text_plain
             (Buffer_from "Internal Server Error while deleting file.") true)
          [Log ("Request: " +:+ "DELETE" +:+ " " +:+ String "/" code);
           LogError ("[DELETE " +:+ code +:+ "] Error deleting file: " +:+ err_message err)]
          true).
Proof.
  intros Hv Hu Hm Hf. enter_run Hv Hu Hm. run_body. cbn.
  rewrite Hf. cbn. destruct (String.eqb (err_code err) "ENOENT"); reflexivity.
Qed.

End Runs.

Lemma response_run options env req fs :
  response options env req fs = res (run options env req fs).2.
Proof. reflexivity. Qed.

Lemma cache_after_run options env req fs :
  cache_after options env req fs = files (run options env req fs).2.
Proof. reflexivity. Qed.

Lemma console_after_run options env req fs :
  console_after options env req fs = console (run options env req fs).2.
Proof. reflexivity. Qed.

(** The cases of a request; in each, [Hrun] says how the run ends. *)
Ltac request_cases options env req fs :=
  let code := fresh "code" in
  let Hcode := fresh "Hcode" in
  destruct (getHttpCodeFromUrl (url req)) as [code|] eqn:Hcode;
  [ apply getHttpCodeFromUrl_Some in Hcode as [Hv Hu];
    destruct (String.eqb_spec (method req) "GET") as [Hm|HnG];
    [ pose proof (run_GET options env req fs code Hv Hu Hm) as Hrun
    | destruct (String.eqb_spec (method req) "PUT") as [Hm|HnP];
      [ destruct (body_error req) as [err|] eqn:Hbe;
        [ pose proof (run_PUT_aborted options env req fs code err Hv Hu Hm Hbe) as Hrun
        | assert (Hbody : Buffer_concat (body_chunks req) = []
                          \/ Buffer_concat (body_chunks req) <> [])
            by (destruct (Buffer_concat (body_chunks req)); [left|right]; easy);
          destruct Hbody as [Hbody|Hbody];
          [ pose proof (run_PUT_empty options env req fs code Hv Hu Hm Hbe Hbody) as Hrun
          | destruct (write_fault env) as [wf|] eqn:Hwf;
            [ pose proof (run_PUT_write_failed options env req fs code wf
                            Hv Hu Hm Hbe Hbody Hwf) as Hrun
            | pose proof (run_PUT_stored options env req fs code
                            Hv Hu Hm Hbe Hbody Hwf) as Hrun ] ] ]
      | destruct (String.eqb_spec (method req) "DELETE") as [Hm|HnD];
        [ destruct (unlink_fault env) as [uerr|] eqn:Huf;
          [ pose proof (run_DELETE_failed options env req fs code uerr Hv Hu Hm Huf)
              as Hrun;
            destruct (String.eqb (err_code uerr) "ENOENT") eqn:Hen
          | destruct (fs !! getCacheFilePath options code) as [old|] eqn:Hold;
            [ pose proof (run_DELETE_removed options env req fs code Hv Hu Hm Huf
                            (ltac:(rewrite Hold; eauto))) as Hrun
            | pose proof (run_DELETE_absent options env req fs code Hv Hu Hm Huf Hold)
                as Hrun ] ]
        | pose proof (run_other_method options env req fs code Hv Hu HnG HnP HnD)
            as Hrun ] ] ]
  | pose proof (run_invalid options env req fs Hcode) as Hrun ].

(** Rewrite the observations of a run with how it ended. *)
Ltac observe Hrun :=
  rewrite ?response_run, ?cache_after_run, ?console_after_run, ?Hrun in *;
  cbn [fst snd res files console statusCode headers body headersSent writableEnded] in *.

Section MoreProperties.

Variable options : Options.

(** ** Every request is answered *)


(** On a path [/DDD]: GET answers 200 with the image headers; PUT answers
    201, 400 or 500 and DELETE 200, 404 or 500, both as [text/plain]. *)
Theorem status_table (env : Env) (req : IncomingMessage) (fs : gmap string Buffer) :
  code_path (url req) = true ->
  (method req = "GET" ->
     statusCode (response options env req fs) = 200
     /\ headers (response options env req fs) = image_headers)
  /\ (method req = "PUT" ->
      In (statusCode (response options env req fs)) [201; 400; 500]
      /\ headers (response options env req fs) = text_plain)
  /\ (method req = "DELETE" ->
      In (statusCode (response options env req fs)) [200; 404; 500]
      /\ headers (response options env req fs) = text_plain).
Proof.
  intros Hp. request_cases options env req fs; observe Hrun.
  all: try (assert (code_path (url req) = true -> False)
              by (rewrite getHttpCodeFromUrl_accepts, Hcode; intros [? ?]; discriminate));
       try tauto.
  all: repeat split; intros; try congruence; cbn; auto 10.
Qed.

(** ** PUT *)

(** A PUT on [/DDD] is answered 201 exactly when its body arrived whole,
    is not empty, and [writeFile] did not fail; the answer is then the
    confirmation naming the code, and the entry of the code is the body. *)
Theorem put_created_iff (env : Env) (req : IncomingMessage) (fs : gmap string Buffer)
    (code : string) :
  valid_code code = true -> url req = String "/" code -> method req = "PUT" ->
  (statusCode (response options env req fs) = 201
   <-> body_error req = None /\ Buffer_concat (body_chunks req) <> []
       /\ write_fault env = None)
  /\ (statusCode (response options env req fs) = 201 ->
      response options env req fs =
        mkResponse true 201 text_plain
          (Buffer_from ("Created: Image for code " +:+ code +:+ " saved/replaced in cache."))
          true
      /\ cache_after options env req fs !! getCacheFilePath options code
         = Some (Buffer_concat (body_chunks req))).
Proof.
  intros Hv0 Hu0 Hm0. request_cases options env req fs; observe Hrun; try congruence.
  all: try (rewrite Hu0, (getHttpCodeFromUrl_valid _ Hv0) in Hcode; discriminate Hcode).
  all: assert (code0 = code) as -> by congruence.
  - split; [split; [discriminate | intros (? & _); discriminate] | discriminate].
  - split; [split; [discriminate | intros (_ & ? & _); contradiction] | discriminate].
  - split; [split; [discriminate | intros (_ & _ & ?); discriminate] | discriminate].
  - split; [split; auto|]. intros _. split; [reflexivity | apply lookup_insert_eq].
Qed.

(** When [writeFile] fails, the PUT is answered 500 with the body
    "Internal Server Error while saving file."; if the failed write left
    the path as it was, the whole cache is as it was. *)
Theorem put_write_failure_is_500 (env : Env) (req : IncomingMessage)
    (fs : gmap string Buffer) (code : string) (f : WriteFault) :
  valid_code code = true -> url req = String "/" code -> method req = "PUT" ->
  body_error req = None -> Buffer_concat (body_chunks req) <> [] ->
  write_fault env = Some f ->
  response options env req fs =
    mkResponse true 500 text_plain (Buffer_from "Internal Server Error while saving file.")
      true
  /\ (wf_left f = None -> cache_after options env req fs = fs).
Proof.
  intros Hv Hu Hm Hbe Hb Hw.
  pose proof (run_PUT_write_failed options env req fs code f Hv Hu Hm Hbe Hb Hw) as Hrun.
  observe Hrun. split; [reflexivity|]. now intros ->.
Qed.

(** The stored entry and the response depend on the body only through the
    concatenation of its chunks: two requests that differ only in where the
    body is cut into chunks run identically. *)
Theorem chunking_is_irrelevant (env : Env) (req1 req2 : IncomingMessage)
    (fs : gmap string Buffer) :
  method req1 = method req2 -> url req1 = url req2 ->
  body_error req1 = body_error req2 ->
  Buffer_concat (body_chunks req1) = Buffer_concat (body_chunks req2) ->
  run options env req1 fs = run options env req2 fs.
Proof.
  intros Em Eu Ee Eb. request_cases options env req1 fs; rewrite Hrun; symmetry.
  - apply run_GET; congruence.
  - apply run_PUT_aborted with (err := err); congruence.
  - apply run_PUT_empty; congruence.
  - apply run_PUT_write_failed; congruence.
  - rewrite Eb. apply run_PUT_stored; congruence.
  - rewrite (run_DELETE_failed options env req2 fs code uerr); try congruence.
    now rewrite Hen.
  - rewrite (run_DELETE_failed options env req2 fs code uerr); try congruence.
    now rewrite Hen.
  - apply run_DELETE_removed; try congruence. rewrite Hold; eauto.
  - apply run_DELETE_absent; congruence.
  - rewrite (run_other_method options env req2 fs code); try congruence.
    unfold sent_body, response_has_body. now rewrite Em, Eu.
  - rewrite (run_invalid options env req2 fs); try congruence.
    unfold sent_body, response_has_body. now rewrite Em.
Qed.

(** ** DELETE *)

(** When [unlink] fails, the cache is left as it was; the answer is 500
    with the body "Internal Server Error while deleting file." unless the
    error's code is [ENOENT], which is answered like a missing entry. *)
Theorem delete_failure (env : Env) (req : IncomingMessage) (fs : gmap string Buffer)
    (code : string) (err : JsError) :
  valid_code code = true -> url req = String "/" code -> method req = "DELETE" ->
  unlink_fault env = Some err ->
  cache_after options env req fs = fs
  /\ (err_code err <> "ENOENT" ->
      response options env req fs =
        mkResponse true 500 text_plain
          (Buffer_from "Internal Server Error while deleting file.") true)
  /\ (err_code err = "ENOENT" ->
      response options env req fs =
        mkResponse true 404 text_plain (Buffer_from "Not Found: Image not in cache.") true).
Proof.
  intros Hv Hu Hm Hf.
  pose proof (run_DELETE_failed options env req fs code err Hv Hu Hm Hf) as Hrun.
  destruct (String.eqb_spec (err_code err) "ENOENT") as [E|E]; observe Hrun;
    repeat split; intros; congruence.
Qed.

(** A second DELETE of a code just deleted finds nothing: it is answered
    404 and changes nothing. *)
Theorem delete_twice (env1 env2 : Env) (req1 req2 : IncomingMessage)
    (fs : gmap string Buffer) (code : string) :
  valid_code code = true ->
  url req1 = String "/" code -> method req1 = "DELETE" ->
  url req2 = String "/" code -> method req2 = "DELETE" ->
  statusCode (response options env1 req1 fs) = 200 ->
  unlink_fault env2 = None ->
  response options env2 req2 (cache_after options env1 req1 fs) =
    mkResponse true 404 text_plain (Buffer_from "Not Found: Image not in cache.") true
  /\ cache_after options env2 req2 (cache_after options env1 req1 fs)
     = cache_after options env1 req1 fs.
Proof.
  intros Hv Hu1 Hm1 Hu2 Hm2 Hs Hf.
  destruct (DELETE_200_removed options env1 req1 fs code Hv Hu1 Hm1 Hs) as [_ ->].
  pose proof (run_DELETE_absent options env2 req2 _ code Hv Hu2 Hm2 Hf
                (lookup_delete_eq fs (getCacheFilePath options code))) as Hrun.
  observe Hrun. auto.
Qed.

(** ** How PUT and DELETE compose *)

(** A PUT that succeeds hides every earlier successful PUT of the same
    code: the cache is the one the last PUT alone would have left. *)
Theorem put_overwrites (env1 env2 : Env) (req1 req2 : IncomingMessage)
    (fs : gmap string Buffer) (code : string) :
  valid_code code = true ->
  url req1 = String "/" code -> method req1 = "PUT" ->
  url req2 = String "/" code -> method req2 = "PUT" ->
  statusCode (response options env1 req1 fs) = 201 ->
  statusCode (response options env2 req2 (cache_after options env1 req1 fs)) = 201 ->
  cache_after options env2 req2 (cache_after options env1 req1 fs)
  = cache_after options env2 req2 fs.
Proof.
  intros Hv Hu1 Hm1 Hu2 Hm2 Hs1 Hs2.
  destruct (PUT_created options env1 req1 fs code Hv Hu1 Hm1 Hs1) as (_ & _ & _ & E1).
  rewrite E1 in *.
  destruct (PUT_created options env2 req2 _ code Hv Hu2 Hm2 Hs2) as (Hb & Hn & Hw & ->).
  pose proof (run_PUT_stored options env2 req2 fs code Hv Hu2 Hm2 Hb Hn Hw) as Hrun.
  observe Hrun. apply insert_insert_eq.
Qed.

(** A DELETE after a successful PUT of the same code is answered 200 and
    leaves the cache as if the code had been deleted without the PUT. *)
Theorem put_then_delete (env1 env2 : Env) (req1 req2 : IncomingMessage)
    (fs : gmap string Buffer) (code : string) :
  valid_code code = true ->
  url req1 = String "/" code -> method req1 = "PUT" ->
  url req2 = String "/" code -> method req2 = "DELETE" ->
  statusCode (response options env1 req1 fs) = 201 ->
  unlink_fault env2 = None ->
  response options env2 req2 (cache_after options env1 req1 fs) =
    mkResponse true 200 text_plain
      (Buffer_from ("OK: Image for code " +:+ code +:+ " deleted from cache.")) true
  /\ cache_after options env2 req2 (cache_after options env1 req1 fs)
     = delete (getCacheFilePath options code) fs.
Proof.
  intros Hv Hu1 Hm1 Hu2 Hm2 Hs Hf.
  destruct (PUT_created options env1 req1 fs code Hv Hu1 Hm1 Hs) as (_ & _ & _ & ->).
  pose proof (run_DELETE_removed options env2 req2
                (<[getCacheFilePath options code := Buffer_concat (body_chunks req1)]> fs)
                code Hv Hu2 Hm2 Hf) as Hrun.
  rewrite lookup_insert_eq in Hrun. specialize (Hrun (ltac:(eauto))).
  observe Hrun. split; [reflexivity | apply delete_insert_eq].
Qed.

(** ** GET *)

(** The body of a GET response is always a prefix of the stored entry
    (empty when there is none): the whole entry when the read does not
    fail, and what was read before the failure otherwise.  The status is
    200 in both cases. *)
Theorem get_body_is_prefix_of_entry (env : Env) (req : IncomingMessage)
    (fs : gmap string Buffer) (code : string) :
  valid_code code = true -> url req = String "/" code -> method req = "GET" ->
  statusCode (response options env req fs) = 200
  /\ body (response options env req fs)
     `prefix_of` default [] (fs !! getCacheFilePath options code)
  /\ (read_fault env = None ->
      body (response options env req fs)
      = default [] (fs !! getCacheFilePath options code)).
Proof.
  intros Hv Hu Hm. pose proof (run_GET options env req fs code Hv Hu Hm) as Hrun.
  observe Hrun. unfold streamed, stream_events.
  split; [reflexivity|]. destruct (read_fault env) as [f|].
  - split; [apply prefix_take | discriminate].
  - destruct (fs !! getCacheFilePath options code); cbn; split; auto.
Qed.

(** ** The console *)

(** The message of every internal failure is written to [console.error],
    as the last line of the request: a failing request body, a failing
    [writeFile], a failing [unlink] (other than [ENOENT]) and a failing
    read stream. *)
Theorem failures_are_logged (env : Env) (req : IncomingMessage)
    (fs : gmap string Buffer) (code : string) :
  valid_code code = true -> url req = String "/" code ->
  (forall err, method req = "PUT" -> body_error req = Some err ->
     last (console_after options env req fs)
     = Some (LogError ("[PUT " +:+ code +:+ "] Error reading request body: "
                       +:+ err_message err)))
  /\ (forall f, method req = "PUT" -> body_error req = None ->
       Buffer_concat (body_chunks req) <> [] -> write_fault env = Some f ->
       last (console_after options env req fs)
       = Some (LogError ("[PUT " +:+ code +:+ "] Error saving file: "
                         +:+ err_message (wf_error f))))
  /\ (forall err, method req = "DELETE" -> unlink_fault env = Some err ->
       err_code err <> "ENOENT" ->
       last (console_after options env req fs)
       = Some (LogError ("[DELETE " +:+ code +:+ "] Error deleting file: "
                         +:+ err_message err)))
  /\ (forall f, method req = "GET" -> read_fault env = Some f ->
       last (console_after options env req fs)
       = Some (LogError ("[GET " +:+ code +:+ "] Stream error: "
                         +:+ err_message (rf_error f)))).
Proof.
  intros Hv Hu. repeat split.
  - intros err Hm He.
    pose proof (run_PUT_aborted options env req fs code err Hv Hu Hm He) as Hrun.
    observe Hrun. reflexivity.
  - intros f Hm He Hb Hw.
    pose proof (run_PUT_write_failed options env req fs code f Hv Hu Hm He Hb Hw) as Hrun.
    observe Hrun. reflexivity.
  - intros err Hm Hf Hne.
    pose proof (run_DELETE_failed options env req fs code err Hv Hu Hm Hf) as Hrun.
    apply String.eqb_neq in Hne. rewrite Hne in Hrun. observe Hrun. reflexivity.
  - intros f Hm Hf.
    pose proof (run_GET options env req fs code Hv Hu Hm) as Hrun.
    unfold stream_error_log, stream_events in Hrun. rewrite Hf in Hrun.
    observe Hrun. reflexivity.
Qed.

(** A request on a path [/DDD] first logs its method and URL; a request on
    any other path logs nothing. *)
Theorem request_line_is_logged (env : Env) (req : IncomingMessage)
    (fs : gmap string Buffer) :
  (code_path (url req) = true ->
     exists rest, console_after options env req fs
                  = Log ("Request: " +:+ method req +:+ " " +:+ url req) :: rest)
  /\ (code_path (url req) = false -> console_after options env req fs = []).
Proof.
  split; intros Hp.
  - request_cases options env req fs; observe Hrun;
      try (rewrite ?Hm, ?Hu; eexists; reflexivity).
    assert (Hx : code_path (url req) = true) by exact Hp.
    rewrite getHttpCodeFromUrl_accepts, Hcode in Hx. destruct Hx as [? Hx]. discriminate Hx.
  - assert (Hcode : getHttpCodeFromUrl (url req) = None).
    { destruct (getHttpCodeFromUrl (url req)) eqn:E; [|reflexivity].
      assert (code_path (url req) = true) by (apply getHttpCodeFromUrl_accepts; eauto).
      congruence. }
    pose proof (run_invalid options env req fs Hcode) as Hrun. observe Hrun. reflexivity.
Qed.

(** ** What leaves the cache alone *)

(** A request answered with a 4xx status (400, 404 or 405) has not changed
    the cache. *)
Theorem client_errors_change_nothing (env : Env) (req : IncomingMessage)
    (fs : gmap string Buffer) :
  400 <= statusCode (response options env req fs) < 500 ->
  cache_after options env req fs = fs.
Proof.
  intros Hs. request_cases options env req fs; observe Hrun; try reflexivity; lia.
Qed.

(** Only PUT and DELETE on a path [/DDD] can change the cache: a request
    on any other path, or with any other method, leaves it as it was. *)
Theorem only_put_and_delete_write (env : Env) (req : IncomingMessage)
    (fs : gmap string Buffer) :
  code_path (url req) = false \/ (method req <> "PUT" /\ method req <> "DELETE") ->
  cache_after options env req fs = fs.
Proof.
  intros H. request_cases options env req fs; observe Hrun; try reflexivity.
  all: destruct H as [H|[H1 H2]]; try contradiction.
  all: assert (Hx : code_path (url req) = true)
         by (apply getHttpCodeFromUrl_accepts; rewrite Hu;
             rewrite (getHttpCodeFromUrl_valid _ Hv); eauto);
       congruence.
Qed.

(** Serving a request keeps the cache a set of code files: if every file
    is the file of some code before, so it is after, whatever the request
    and whatever fails. *)
Lemma named_by_codes_serve (env : Env) (req : IncomingMessage) (fs : gmap string Buffer) :
  named_by_codes options fs -> named_by_codes options (cache_after options env req fs).
Proof.
  intros Hn p Hp. request_cases options env req fs; observe Hrun; auto.
  - destruct (wf_left wf); auto.
    destruct (decide (p = getCacheFilePath options code)) as [->|Hne]; [eauto|].
    rewrite lookup_insert_ne in Hp by auto. auto.
  - destruct (decide (p = getCacheFilePath options code)) as [->|Hne]; [eauto|].
    rewrite lookup_insert_ne in Hp by auto. auto.
  - destruct (decide (p = getCacheFilePath options code)) as [->|Hne]; [eauto|].
    rewrite lookup_delete_ne in Hp by auto. auto.
Qed.

Lemma serve_all_cons (env : Env) (req : IncomingMessage)
    (rest : list (Env * IncomingMessage)) (fs : gmap string Buffer) :
  (serve_all options ((env, req) :: rest) fs).2
  = (serve_all options rest (cache_after options env req fs)).2.
Proof.
  cbn [serve_all]. fold (cache_after options env req fs).
  now destruct (serve_all options rest (cache_after options env req fs)).
Qed.

(** After any sequence of requests, with any failures, on a cache that
    holds only code files, the cache still holds only code files: the
    server never creates a file under another name. *)
Theorem cache_holds_only_code_files (reqs : list (Env * IncomingMessage))
    (fs : gmap string Buffer) :
  named_by_codes options fs -> named_by_codes options (serve_all options reqs fs).2.
Proof.
  revert fs. induction reqs as [|[env req] reqs IH]; intros fs Hn; [exact Hn|].
  rewrite serve_all_cons. apply IH. now apply named_by_codes_serve.
Qed.

End MoreProperties.

(** ** Spellings of the cache directory *)

Lemma normalize_segments_trailing_slash (b : bool) (dir : string) :
  normalize_segments b (dir +:+ "/") = normalize_segments b dir.
Proof.
  unfold normalize_segments.
  change (dir +:+ "/") with (dir +:+ String "/" "").
  rewrite split_slash_app, fold_left_app. reflexivity.
Qed.

Lemma normalize_segments_leading_dot (b : bool) (dir : string) :
  normalize_segments b ("./" +:+ dir) = normalize_segments b dir.
Proof.
  unfold normalize_segments.
  change ("./" +:+ dir) with ("." +:+ String "/" dir).
  rewrite split_slash_app, fold_left_app. reflexivity.
Qed.

(** The cache files do not depend on how the [--cache] option spells the
    directory: a trailing slash on a non-empty directory, or a leading
    [./] on a relative one, gives the same file for every code. *)
Theorem cache_option_spelling (h : string) (pt : Z) (dir code : string) :
  valid_code code = true ->
  (dir <> "" ->
     getCacheFilePath (mkOptions h pt (dir +:+ "/")) code
     = getCacheFilePath (mkOptions h pt dir) code)
  /\ (isAbsolute dir = false ->
      getCacheFilePath (mkOptions h pt ("./" +:+ dir)) code
      = getCacheFilePath (mkOptions h pt dir) code).
Proof.
  intros Hv. rewrite !getCacheFilePath_valid by exact Hv. cbn [cache].
  unfold dir_prefix. split.
  - intros Hne. rewrite normalize_segments_trailing_slash.
    destruct dir as [|c dir]; [contradiction | reflexivity].
  - intros Habs. rewrite normalize_segments_leading_dot, Habs. reflexivity.
Qed.

(** ** [getCacheFilePath] on any code *)

Lemma has_slash_app (a b : string) : has_slash (a +:+ b) = has_slash a || has_slash b.
Proof.
  induction a as [|c a IH]; [reflexivity|].
  rewrite append_cons. cbn [has_slash]. now rewrite IH, orb_assoc.
Qed.

Lemma jpeg_file_plain (code : string) :
  has_slash code = false -> plain_name (code +:+ ".jpeg") = true.
Proof.
  intros Hs. unfold plain_name. rewrite has_slash_app, Hs. cbn [orb has_slash].
  assert (Hlen : (5 <= String.length (code +:+ ".jpeg"))%nat)
    by (rewrite length_append; cbn; lia).
  assert (H0 : code +:+ ".jpeg" <> "") by (intros E; rewrite E in Hlen; cbn in Hlen; lia).
  assert (H1 : code +:+ ".jpeg" <> ".") by (intros E; rewrite E in Hlen; cbn in Hlen; lia).
  assert (H2 : code +:+ ".jpeg" <> "..") by (intros E; rewrite E in Hlen; cbn in Hlen; lia).
  apply String.eqb_neq in H0, H1, H2. rewrite H0, H1, H2. reflexivity.
Qed.

(** [getCacheFilePath] by itself, on any string without a slash (three
    digits or not): the file is [<code>.jpeg] directly under the cache
    directory, and different codes have different files.  The suffix keeps
    even the codes [.] and [..] from naming a directory. *)
Theorem getCacheFilePath_slash_free (options : Options) (code : string) :
  has_slash code = false ->
  getCacheFilePath options code = dir_prefix (cache options) +:+ code +:+ ".jpeg"
  /\ (forall code', has_slash code' = false ->
        getCacheFilePath options code' = getCacheFilePath options code -> code' = code).
Proof.
  intros Hs.
  assert (Hp : forall c, has_slash c = false ->
                 getCacheFilePath options c = dir_prefix (cache options) +:+ c +:+ ".jpeg").
  { intros c Hc. unfold getCacheFilePath. now rewrite posix_join_plain by now apply jpeg_file_plain. }
  split; [now apply Hp|].
  intros code' Hs' E. rewrite !Hp in E by assumption.
  apply append_inv_head in E. now apply append_inv_tail in E.
Qed.

(** With a slash in it, a code can leave the cache directory: the router's
    pattern, not [getCacheFilePath], is what keeps requests inside. *)
Example getCacheFilePath_with_slashes :
  getCacheFilePath example_options "../../etc/passwd" = "../etc/passwd.jpeg".
Proof. reflexivity. Qed.

(** ** Codes do not interfere *)

(** The response to a request on [/DDD] and what it logs depend on the
    cache only through the entry of its own code. *)
Lemma response_depends_on_own_entry (options : Options) (env : Env)
    (req : IncomingMessage) (fs1 fs2 : gmap string Buffer) (code : string) :
  valid_code code = true -> url req = String "/" code ->
  fs1 !! getCacheFilePath options code = fs2 !! getCacheFilePath options code ->
  response options env req fs1 = response options env req fs2
  /\ console_after options env req fs1 = console_after options env req fs2.
Proof.
  intros Hv0 Hu0 E. request_cases options env req fs1.
  all: try (rewrite Hu0, (getHttpCodeFromUrl_valid _ Hv0) in Hcode; discriminate Hcode).
  all: assert (code0 = code) as -> by congruence.
  - pose proof (run_GET options env req fs2 code Hv Hu Hm) as Hrun2.
    unfold streamed, stream_error_log, stream_events in Hrun, Hrun2.
    rewrite E in Hrun. observe Hrun. observe Hrun2. auto.
  - pose proof (run_PUT_aborted options env req fs2 code err Hv Hu Hm Hbe) as Hrun2.
    observe Hrun. observe Hrun2. auto.
  - pose proof (run_PUT_empty options env req fs2 code Hv Hu Hm Hbe Hbody) as Hrun2.
    observe Hrun. observe Hrun2. auto.
  - pose proof (run_PUT_write_failed options env req fs2 code wf Hv Hu Hm Hbe Hbody Hwf)
      as Hrun2.
    observe Hrun. observe Hrun2. auto.
  - pose proof (run_PUT_stored options env req fs2 code Hv Hu Hm Hbe Hbody Hwf) as Hrun2.
    observe Hrun. observe Hrun2. auto.
  - pose proof (run_DELETE_failed options env req fs2 code uerr Hv Hu Hm Huf) as Hrun2.
    rewrite Hen in Hrun2. observe Hrun. observe Hrun2. auto.
  - pose proof (run_DELETE_failed options env req fs2 code uerr Hv Hu Hm Huf) as Hrun2.
    rewrite Hen in Hrun2. observe Hrun. observe Hrun2. auto.
  - pose proof (run_DELETE_removed options env req fs2 code Hv Hu Hm Huf) as Hrun2.
    rewrite <- E in Hrun2. specialize (Hrun2 (ltac:(eauto))).
    observe Hrun. observe Hrun2. auto.
  - pose proof (run_DELETE_absent options env req fs2 code Hv Hu Hm Huf) as Hrun2.
    rewrite <- E in Hrun2. specialize (Hrun2 Hold).
    observe Hrun. observe Hrun2. auto.
  - pose proof (run_other_method options env req fs2 code Hv Hu HnG HnP HnD) as Hrun2.
    observe Hrun. observe Hrun2. auto.
Qed.

(** Requests on different codes do not see each other: the response to a
    request on [/DDD] is the same whether or not a request on another code
    (of any method, with any failure) was served just before. *)
Theorem codes_are_isolated (options : Options) (env env' : Env)
    (req req' : IncomingMessage) (fs : gmap string Buffer) (code code' : string) :
  valid_code code = true -> url req = String "/" code ->
  valid_code code' = true -> url req' = String "/" code' ->
  code <> code' ->
  response options env' req' (cache_after options env req fs)
  = response options env' req' fs.
Proof.
  intros Hv Hu Hv' Hu' Hne.
  apply (response_depends_on_own_entry options env' req' _ fs code' Hv' Hu').
  apply (frame options env req fs code); auto.
  intros E. apply Hne. symmetry. now apply (getCacheFilePath_inj options).
Qed.

(** ** Further worked examples *)

Lemma status_table_witness :
  code_path "/200" = true
  /\ In (statusCode (response example_options no_faults (PUT "/200" [Buffer_from "img"]) ∅))
       [201; 400; 500].
Proof.
  split; [reflexivity|].
  apply (status_table example_options no_faults (PUT "/200" [Buffer_from "img"]) ∅);
    reflexivity.
Defined.

Lemma put_created_iff_witness :
  statusCode (response example_options no_faults (PUT "/200" [Buffer_from "img"]) ∅) = 201
  <-> body_error (PUT "/200" [Buffer_from "img"]) = None
      /\ Buffer_concat (body_chunks (PUT "/200" [Buffer_from "img"])) <> []
      /\ write_fault no_faults = None.
Proof.
  apply (put_created_iff example_options no_faults (PUT "/200" [Buffer_from "img"]) ∅ "200");
    reflexivity.
Defined.

Lemma put_write_failure_is_500_witness :
  response example_options
    (mkEnv None (Some (mkWriteFault None (mkError "ENOSPC" "no space left on device"))) None)
    (PUT "/200" [Buffer_from "img"]) ∅
  = mkResponse true 500 text_plain (Buffer_from "Internal Server Error while saving file.")
      true.
Proof.
  apply (put_write_failure_is_500 example_options _ (PUT "/200" [Buffer_from "img"]) ∅ "200"
           (mkWriteFault None (mkError "ENOSPC" "no space left on device")));
    try reflexivity.
  discriminate.
Defined.

Lemma chunking_is_irrelevant_witness :
  run example_options no_faults (PUT "/200" [Buffer_from "im"; Buffer_from "g"]) ∅
  = run example_options no_faults (PUT "/200" [Buffer_from "img"]) ∅.
Proof.
  apply (chunking_is_irrelevant example_options); reflexivity.
Defined.

Lemma delete_failure_witness :
  cache_after example_options
    (mkEnv None None (Some (mkError "EACCES" "permission denied")))
    (DELETE "/200") {[ "cache/200.jpeg" := Buffer_from "old" ]}
  = {[ "cache/200.jpeg" := Buffer_from "old" ]}.
Proof.
  apply (delete_failure example_options _ (DELETE "/200") _ "200"
           (mkError "EACCES" "permission denied")); reflexivity.
Defined.

Lemma delete_twice_witness :
  response example_options no_faults (DELETE "/200")
    (cache_after example_options no_faults (DELETE "/200")
       {[ "cache/200.jpeg" := Buffer_from "old" ]})
  = mkResponse true 404 text_plain (Buffer_from "Not Found: Image not in cache.") true.
Proof.
  apply (delete_twice example_options no_faults no_faults (DELETE "/200") (DELETE "/200")
           {[ "cache/200.jpeg" := Buffer_from "old" ]} "200"); reflexivity.
Defined.

Lemma put_overwrites_witness :
  cache_after example_options no_faults (PUT "/200" [Buffer_from "second"])
    (cache_after example_options no_faults (PUT "/200" [Buffer_from "first"]) ∅)
  = cache_after example_options no_faults (PUT "/200" [Buffer_from "second"]) ∅.
Proof.
  apply (put_overwrites example_options no_faults no_faults
           (PUT "/200" [Buffer_from "first"]) (PUT "/200" [Buffer_from "second"]) ∅ "200");
    reflexivity.
Defined.

Lemma put_then_delete_witness :
  cache_after example_options no_faults (DELETE "/200")
    (cache_after example_options no_faults (PUT "/200" [Buffer_from "img"])
       {[ "cache/404.jpeg" := Buffer_from "other" ]})
  = delete (getCacheFilePath example_options "200")
      {[ "cache/404.jpeg" := Buffer_from "other" ]}.
Proof.
  apply (put_then_delete example_options no_faults no_faults
           (PUT "/200" [Buffer_from "img"]) (DELETE "/200") _ "200"); reflexivity.
Defined.

Lemma get_body_is_prefix_of_entry_witness :
  body (response example_options
          (mkEnv (Some (mkReadFault 2 (mkError "EIO" "i/o error"))) None None)
          (GET "/200") {[ "cache/200.jpeg" := Buffer_from "image" ]})
  `prefix_of` default [] (({[ "cache/200.jpeg" := Buffer_from "image" ]}
                            : gmap string Buffer) !! getCacheFilePath example_options "200").
Proof.
  apply (get_body_is_prefix_of_entry example_options _ (GET "/200") _ "200"); reflexivity.
Defined.

Lemma failures_are_logged_witness :
  last (console_after example_options no_faults
          (mkRequest "PUT" "/200" [Buffer_from "half"] (Some (mkError "ECONNRESET" "aborted")))
          ∅)
  = Some (LogError ("[PUT " +:+ "200" +:+ "] Error reading request body: "
                    +:+ err_message (mkError "ECONNRESET" "aborted"))).
Proof.
  apply (failures_are_logged example_options no_faults
           (mkRequest "PUT" "/200" [Buffer_from "half"]
              (Some (mkError "ECONNRESET" "aborted"))) ∅ "200"); reflexivity.
Defined.

Lemma client_errors_change_nothing_witness :
  cache_after example_options no_faults (PUT "/200" [])
    {[ "cache/200.jpeg" := Buffer_from "old" ]}
  = {[ "cache/200.jpeg" := Buffer_from "old" ]}.
Proof.
  apply (client_errors_change_nothing example_options). vm_compute.
  split; [discriminate | reflexivity].
Defined.

Lemma only_put_and_delete_write_witness :
  cache_after example_options no_faults (mkRequest "POST" "/200" [Buffer_from "img"] None)
    {[ "cache/200.jpeg" := Buffer_from "old" ]}
  = {[ "cache/200.jpeg" := Buffer_from "old" ]}.
Proof.
  apply (only_put_and_delete_write example_options). right. split; discriminate.
Defined.

Lemma cache_holds_only_code_files_witness :
  named_by_codes example_options
    (serve_all example_options
       [(no_faults, PUT "/200" [Buffer_from "img"]);
        (no_faults, mkRequest "PUT" "/../etc" [Buffer_from "x"] None);
        (no_faults, DELETE "/404")] ∅).2.
Proof.
  apply (cache_holds_only_code_files example_options).
  intros p [x Hx]. rewrite lookup_empty in Hx. discriminate Hx.
Defined.

Lemma cache_option_spelling_witness :
  getCacheFilePath (mkOptions "localhost" 3000 ("cache" +:+ "/")) "404"
  = getCacheFilePath (mkOptions "localhost" 3000 "cache") "404".
Proof.
  apply (cache_option_spelling "localhost" 3000 "cache" "404");
    first [reflexivity | discriminate].
Defined.

Lemma request_line_is_logged_witness :
  exists rest,
    console_after example_options no_faults (mkRequest "PATCH" "/200" [] None) ∅
    = Log ("Request: " +:+ "PATCH" +:+ " " +:+ "/200") :: rest.
Proof.
  apply (request_line_is_logged example_options no_faults
           (mkRequest "PATCH" "/200" [] None) ∅).
  reflexivity.
Defined.

Lemma getCacheFilePath_slash_free_witness :
  getCacheFilePath example_options ".."
  = dir_prefix (cache example_options) +:+ ".." +:+ ".jpeg".
Proof.
  apply (getCacheFilePath_slash_free example_options ".."). reflexivity.
Defined.

Lemma codes_are_isolated_witness :
  response example_options no_faults (GET "/404")
    (cache_after example_options no_faults (DELETE "/200")
       (<["cache/200.jpeg" := Buffer_from "a"]> {[ "cache/404.jpeg" := Buffer_from "b" ]}))
  = response example_options no_faults (GET "/404")
      (<["cache/200.jpeg" := Buffer_from "a"]> {[ "cache/404.jpeg" := Buffer_from "b" ]}).
Proof.
  apply (codes_are_isolated example_options no_faults no_faults (DELETE "/200") (GET "/404")
           _ "200" "404"); first [reflexivity | discriminate].
Defined.
